(** * Smart-bin dashboard: role detection, access gating, reports, proximity

    A shallow embedding of [src/Home.jsx].

    - Strings are [string], holding text as its UTF-8 bytes.  The
      component only ever compares a lowercased string with an ASCII
      literal; [toLowerCase] maps the code points whose lowercase is ASCII
      ([A]-[Z] and U+212A KELVIN SIGN, which becomes [k]) and leaves the
      others in place, which decides those comparisons as JavaScript does.
    - A nullable JavaScript value is an [option]; the bodies returned by the
      services carry the fields of their documented shape, each one present
      or absent.
    - The component's [useState] cells form the record [HomeState]; what the
      handlers do to the outside (requests sent, timers armed, routes pushed,
      console lines) is collected in [World].  Handlers are computations in
      the monad [M], which threads the world and can raise a JavaScript
      exception.
    - [haversineDistance] is embedded twice: over the real numbers, for
      the statements about the formula, and over binary64 doubles (module
      [Double]), where [Math.sin], [Math.cos] and [Math.atan2] are supplied
      by a [Math.lib], for what the code returns. *)

From Stdlib Require Import String Ascii List ZArith Bool Lia Reals Lra.
From Stdlib Require Floats.
Import ListNotations.

Local Open Scope string_scope.
Local Open Scope list_scope.

(** ** JavaScript string and nullish helpers *)

Module JS.

(** [!!s] for a string: only the empty string is falsy. *)
Definition truthy (s : string) : bool := negb (s =? "").

(** [v || d] where [v] is a string, [null] or [undefined]. *)
Definition or_else (v : option string) (d : string) : string :=
  match v with
  | Some s => if truthy s then s else d
  | None => d
  end.

(** [v ?? d]. *)
Definition nullish {A : Type} (v : option A) (d : A) : A :=
  match v with
  | Some x => x
  | None => d
  end.

(** [data?.f] where [data] is an object or [null]. *)
Definition opt_chain {D A : Type} (data : option D) (f : D -> option A)
  : option A :=
  match data with
  | Some d => f d
  | None => None
  end.

Definition lower_char (c : ascii) : ascii :=
  let n := nat_of_ascii c in
  if (65 <=? n)%nat && (n <=? 90)%nat then ascii_of_nat (n + 32) else c.

(** The three bytes of U+212A KELVIN SIGN, the one code point outside
    ASCII whose lowercase is an ASCII letter. *)
Definition kelvin_sign (c1 c2 c3 : ascii) : bool :=
  (nat_of_ascii c1 =? 226)%nat && (nat_of_ascii c2 =? 132)%nat
  && (nat_of_ascii c3 =? 170)%nat.

(** [String.prototype.toLowerCase], on the code points whose lowercase is
    ASCII: [A]-[Z] and the Kelvin sign.  Every other code point is left in
    place. *)
Fixpoint toLowerCase (s : string) : string :=
  match s with
  | EmptyString => EmptyString
  | String c r =>
      match r with
      | String c2 (String c3 r') =>
          if kelvin_sign c c2 c3
          then String "k" (toLowerCase r')
          else String (lower_char c) (toLowerCase r)
      | _ => String (lower_char c) (toLowerCase r)
      end
  end.

End JS.

(** ** Data model *)

Module RoleInfo.
Record t : Type := mk
  { role : string;
    source : option string;
    id : option string;
    description : option string }.
End RoleInfo.

(** Body of a [detect-role] answer. *)
Module Data.
Record t : Type := mk
  { role : option string;
    source : option string;
    id : option string;
    description : option string }.
End Data.

(** Body of the IP lookup answer. *)
Module IpData.
Record t : Type := mk { ip : option string }.
End IpData.

Record ReportPayload : Type := mkPayload
  { binId : string;
    note : string }.

Module ReportStatus.
Record t : Type := mk
  { type : string;
    text : string }.
End ReportStatus.

Module Bin.
Record t : Type := mk
  { id : string;
    title : string;
    lat : R;
    lng : R;
    status : option string;
    dist : string }.
End Bin.

(** ** The network as the component sees it *)

Module Res.

(** What [res.json()] settles to. *)
Inductive json_result (D : Type) : Type :=
| JsonRejected
| JsonNull
| JsonObject (d : D).
Arguments JsonRejected {D}.
Arguments JsonNull {D}.
Arguments JsonObject {D} d.

(** A [Response]: [text] is [None] when [res.text()] rejects. *)
Record t (D : Type) : Type := mk
  { status : Z;
    text : option string;
    json : json_result D }.
Arguments mk {D} status text json.
Arguments status {D} _.
Arguments text {D} _.
Arguments json {D} _.

(** [res.ok]: the status is in the range 200-299. *)
Definition ok {D : Type} (r : t D) : bool :=
  ((200 <=? status r) && (status r <=? 299))%Z.

End Res.

Inductive FetchResult (D : Type) : Type :=
| NetworkError
| Responded (r : Res.t D).
Arguments NetworkError {D}.
Arguments Responded {D} r.

Record Network : Type := mkNetwork
  { ipify : FetchResult IpData.t;
    detect : string -> FetchResult Data.t;
    report : ReportPayload -> FetchResult unit }.

Inductive Request : Type :=
| GetIpify
| PostDetect (ip : string)
| PostReport (p : ReportPayload).

(** ** Exceptions, timers, component state *)

Inductive exn : Type :=
| FetchFailed
| JsonSyntaxError
| NullPropertyAccess
| ServerError (status : Z) (txt : string)
| ReportFailed.

(** The two arrow functions handed to [setTimeout]. *)
Inductive Callback : Type :=
| ClearError
| ClearReportStatus.

Record HomeState : Type := mkState
  { roleInfo : RoleInfo.t;
    loading : bool;
    error : option string;
    manualIp : string;
    useManual : bool;
    showReport : bool;
    reportPayload : ReportPayload;
    reportStatus : option ReportStatus.t }.

Record World : Type := mkWorld
  { state : HomeState;
    requests : list Request;
    timers : list (Z * Callback);
    history : list string;
    console : list (string * exn) }.

(** State of the component at mount time. *)
Definition initialState : HomeState :=
  {| roleInfo := RoleInfo.mk "detecting" None None None;
     loading := true;
     error := None;
     manualIp := "";
     useManual := false;
     showReport := false;
     reportPayload := mkPayload "" "";
     reportStatus := None |}.

Definition initialWorld : World :=
  {| state := initialState;
     requests := [];
     timers := [];
     history := [];
     console := [] |}.

(** ** The monad of handlers *)

Inductive Result (A : Type) : Type :=
| Ok (a : A)
| Throw (e : exn).
Arguments Ok {A} a.
Arguments Throw {A} e.

Definition M (A : Type) : Type := World -> Result A * World.

Definition ret {A : Type} (a : A) : M A := fun w => (Ok a, w).

Definition bind {A B : Type} (m : M A) (k : A -> M B) : M B :=
  fun w =>
    match m w with
    | (Ok a, w1) => k a w1
    | (Throw e, w1) => (Throw e, w1)
    end.

Definition throw {A : Type} (e : exn) : M A := fun w => (Throw e, w).

(** [try { body } catch (err) { handler }] *)
Definition try_catch {A : Type} (body : M A) (handler : exn -> M A) : M A :=
  fun w =>
    match body w with
    | (Ok a, w1) => (Ok a, w1)
    | (Throw e, w1) => handler e w1
    end.

(** [try { body } finally { fin }]: an exception of [fin] replaces the
    outcome of [body]. *)
Definition try_finally {A : Type} (body : M A) (fin : M unit) : M A :=
  fun w =>
    match body w with
    | (r, w1) =>
        match fin w1 with
        | (Ok _, w2) => (r, w2)
        | (Throw e, w2) => (Throw e, w2)
        end
    end.

Declare Scope js_scope.
Delimit Scope js_scope with js.
Notation "x <- c ;; k" := (bind c (fun x => k))
  (at level 100, c at next level, right associativity) : js_scope.
Notation "c ;; k" := (bind c (fun _ => k))
  (at level 100, right associativity) : js_scope.
Local Open Scope js_scope.

Definition modify (f : HomeState -> HomeState) : M unit :=
  fun w =>
    (Ok tt,
     {| state := f (state w);
        requests := requests w;
        timers := timers w;
        history := history w;
        console := console w |}).

Definition setRoleInfo (r : RoleInfo.t) : M unit :=
  modify (fun s =>
    mkState r (loading s) (error s) (manualIp s) (useManual s)
            (showReport s) (reportPayload s) (reportStatus s)).

(** [setRoleInfo((s) => f(s))] *)
Definition updateRoleInfo (f : RoleInfo.t -> RoleInfo.t) : M unit :=
  modify (fun s =>
    mkState (f (roleInfo s)) (loading s) (error s) (manualIp s) (useManual s)
            (showReport s) (reportPayload s) (reportStatus s)).

Definition setLoading (b : bool) : M unit :=
  modify (fun s =>
    mkState (roleInfo s) b (error s) (manualIp s) (useManual s)
            (showReport s) (reportPayload s) (reportStatus s)).

Definition setError (e : option string) : M unit :=
  modify (fun s =>
    mkState (roleInfo s) (loading s) e (manualIp s) (useManual s)
            (showReport s) (reportPayload s) (reportStatus s)).

Definition setShowReport (b : bool) : M unit :=
  modify (fun s =>
    mkState (roleInfo s) (loading s) (error s) (manualIp s) (useManual s)
            b (reportPayload s) (reportStatus s)).

Definition setReportPayload (p : ReportPayload) : M unit :=
  modify (fun s =>
    mkState (roleInfo s) (loading s) (error s) (manualIp s) (useManual s)
            (showReport s) p (reportStatus s)).

Definition setReportStatus (r : option ReportStatus.t) : M unit :=
  modify (fun s =>
    mkState (roleInfo s) (loading s) (error s) (manualIp s) (useManual s)
            (showReport s) (reportPayload s) r).

Definition setTimeout (cb : Callback) (ms : Z) : M unit :=
  fun w =>
    (Ok tt,
     {| state := state w;
        requests := requests w;
        timers := timers w ++ [(ms, cb)];
        history := history w;
        console := console w |}).

Definition navigate (path : string) : M unit :=
  fun w =>
    (Ok tt,
     {| state := state w;
        requests := requests w;
        timers := timers w;
        history := history w ++ [path];
        console := console w |}).

(** [console.error] and [console.warn] *)
Definition console_log (label : string) (err : exn) : M unit :=
  fun w =>
    (Ok tt,
     {| state := state w;
        requests := requests w;
        timers := timers w;
        history := history w;
        console := console w ++ [(label, err)] |}).

(** What a timer does when it fires. *)
Definition runCallback (cb : Callback) : M unit :=
  match cb with
  | ClearError => setError None
  | ClearReportStatus => setReportStatus None
  end.

(** [await fetch(...)]: the request is recorded, then the promise settles. *)
Definition fetch {D : Type} (rq : Request) (answer : FetchResult D)
  : M (Res.t D) :=
  fun w =>
    let w1 :=
      {| state := state w;
         requests := requests w ++ [rq];
         timers := timers w;
         history := history w;
         console := console w |} in
    match answer with
    | NetworkError => (Throw FetchFailed, w1)
    | Responded r => (Ok r, w1)
    end.

(** [await res.json()] *)
Definition res_json {D : Type} (r : Res.t D) : M (option D) :=
  match Res.json r with
  | Res.JsonRejected => throw JsonSyntaxError
  | Res.JsonNull => ret None
  | Res.JsonObject d => ret (Some d)
  end.

(** [await res.text().catch(() => "")] *)
Definition res_text_or_empty {D : Type} (r : Res.t D) : string :=
  JS.nullish (Res.text r) "".

(** [data.f]: reading a property of [null] throws. *)
Definition prop {D A : Type} (data : option D) (f : D -> A) : M A :=
  match data with
  | Some d => ret (f d)
  | None => throw NullPropertyAccess
  end.

(** ** [BinMap]: marker colour *)

Module BinMap.

(** The [color] chosen inside [bins.map((b) => ...)]. *)
Definition color (b : Bin.t) : string :=
  if JS.toLowerCase (JS.or_else (Bin.status b) "") =? "overflow"
  then "#ef4444"
  else if JS.toLowerCase (JS.or_else (Bin.status b) "") =? "full"
  then "#ef4444"
  else if (JS.toLowerCase (JS.or_else (Bin.status b) "") =? "ok")
          || (JS.toLowerCase (JS.or_else (Bin.status b) "") =? "normal")
  then "#0ea5e9"
  else "#f59e0b".

End BinMap.

Definition DEFAULT_CENTER : R * R := (12.9716%R, 77.5946%R).

Definition demoBins : list Bin.t :=
  [ Bin.mk "BIN-A" "Bin A" 12.9721%R 77.5948%R (Some "OVERFLOW") "0.05 km";
    Bin.mk "BIN-B" "Bin B" 12.9710%R 77.5960%R (Some "OK") "0.10 km";
    Bin.mk "BIN-C" "Bin C" 12.9702%R 77.5930%R (Some "FULL") "0.85 km" ].

(** ** [Home]: values derived at render time *)

(** [(roleInfo.role || "").toString().toLowerCase()] *)
Definition normalizedRole (s : HomeState) : string :=
  JS.toLowerCase (JS.or_else (Some (RoleInfo.role (roleInfo s))) "").

Definition showAdminButton (s : HomeState) : bool :=
  normalizedRole s =? "admin".

Definition showDriverButton (s : HomeState) : bool :=
  (normalizedRole s =? "driver") || (normalizedRole s =? "truck").

(** ** [Home]: handlers *)

Definition FALLBACK_IP : string := "203.0.173.5".

Definition DETECT_FAILED : string :=
  "Failed to detect role. Make sure backend is running and allows CORS.".

(** A handler is a closure of one render: [net] answers its requests and
    [render] is the state that render saw, from which the handler reads
    [useManual], [manualIp], [reportPayload] and the derived flags.  The
    setters act on the world the handler runs in. *)
Section Handlers.

Variable net : Network.
Variable render : HomeState.

Definition callDetectEndpoint (ip : string) : M unit :=
  setLoading true ;;
  setError None ;;
  try_finally
    (try_catch
       (res <- fetch (PostDetect ip) (detect net ip) ;;
        (if negb (Res.ok res)
         then throw (ServerError (Res.status res) (res_text_or_empty res))
         else ret tt) ;;
        data <- res_json res ;;
        setRoleInfo
          {| RoleInfo.role :=
               JS.nullish (JS.opt_chain data Data.role) "user";
             RoleInfo.source :=
               Some (JS.nullish (JS.opt_chain data Data.source) ip);
             RoleInfo.id := JS.opt_chain data Data.id;
             RoleInfo.description :=
               Some (JS.nullish (JS.opt_chain data Data.description) "") |})
       (fun err =>
          console_log "detect-role error:" err ;;
          setError (Some DETECT_FAILED) ;;
          updateRoleInfo (fun s =>
            {| RoleInfo.role := "guest";
               RoleInfo.source := Some ip;
               RoleInfo.id := RoleInfo.id s;
               RoleInfo.description := RoleInfo.description s |})))
    (setLoading false).

Definition detectRoleFlow : M unit :=
  setLoading true ;;
  setError None ;;
  if useManual render && JS.truthy (manualIp render)
  then (callDetectEndpoint (manualIp render) ;;
        setLoading false)
  else (ip <- try_catch
                (r <- fetch GetIpify (ipify net) ;;
                 if Res.ok r
                 then (data <- res_json r ;;
                       v <- prop data IpData.ip ;;
                       ret (JS.or_else v ""))
                 else ret "")
                (fun _ => ret "") ;;
        let ip := if negb (JS.truthy ip) then FALLBACK_IP else ip in
        callDetectEndpoint ip ;;
        setLoading false).

Definition handleDetectClick : M unit :=
  if useManual render && negb (JS.truthy (manualIp render))
  then setError (Some "Please enter an IP to use manual detection.")
  else (setError None ;;
        detectRoleFlow).

Definition submitReport : M unit :=
  setReportStatus
    (Some (ReportStatus.mk "loading" "Submitting report...")) ;;
  try_finally
    (try_catch
       (res <- fetch (PostReport (reportPayload render))
                     (report net (reportPayload render)) ;;
        (if negb (Res.ok res) then throw ReportFailed else ret tt) ;;
        setReportStatus
          (Some (ReportStatus.mk "success" "Report submitted — thank you!")) ;;
        setShowReport false ;;
        setReportPayload (mkPayload "" ""))
       (fun err =>
          console_log "report error" err ;;
          setReportStatus
            (Some (ReportStatus.mk "error"
               "Could not submit report (backend may be missing)."))))
    (setTimeout ClearReportStatus 3000).

Definition handleAdminNavigate : M unit :=
  if negb (showAdminButton render)
  then (setError (Some "Access denied — admin IP not detected.") ;;
        setTimeout ClearError 2500)
  else navigate "/admin".

Definition handleDriverNavigate : M unit :=
  if negb (showDriverButton render)
  then (setError (Some "Access denied — driver IP not detected.") ;;
        setTimeout ClearError 2500)
  else navigate "/driver".

End Handlers.

(** Requests to the role-detection service among a list of requests. *)
Fixpoint detectCalls (l : list Request) : list string :=
  match l with
  | [] => []
  | PostDetect ip :: r => ip :: detectCalls r
  | _ :: r => detectCalls r
  end.

(** ** Proximity: the haversine distance, over the reals *)

Local Open Scope R_scope.

(** [Math.atan2(y, x)] *)
Definition atan2 (y x : R) : R :=
  if Rlt_dec 0 x then atan (y / x)
  else if Rlt_dec x 0
       then (if Rle_dec 0 y then atan (y / x) + PI else atan (y / x) - PI)
       else if Rlt_dec 0 y then PI / 2
            else if Rlt_dec y 0 then - (PI / 2)
                 else 0.

Definition toRad (deg : R) : R := (deg * PI) / 180.

(** The quantity [a] of [haversineDistance]. *)
Definition haversineA (lat1 lon1 lat2 lon2 : R) : R :=
  let dLat := toRad (lat2 - lat1) in
  let dLon := toRad (lon2 - lon1) in
  sin (dLat / 2) * sin (dLat / 2)
  + cos (toRad lat1) * cos (toRad lat2) * sin (dLon / 2) * sin (dLon / 2).

Definition haversineDistance (lat1 lon1 lat2 lon2 : R) : R :=
  let R := 6371 in
  let a := haversineA lat1 lon1 lat2 lon2 in
  let c := 2 * atan2 (sqrt a) (sqrt (1 - a)) in
  let d := R * c in
  d.


Local Close Scope R_scope.

(** ** Proximity: the haversine distance, over binary64 *)

(** [Math.sin], [Math.cos] and [Math.atan2] are supplied by the engine;
    a [Math.lib] is one such supply. *)
Module Math.
Import Stdlib.Floats.Floats.
Local Open Scope float_scope.

Record lib : Type := mk
  { sin : float -> float;
    cos : float -> float;
    atan2 : float -> float -> float }.

(** [Math.PI], the double nearest to pi. *)
Definition PI : float := 0x1.921fb54442d18p+1.

(** What the statements ask of a library: arguments below [2 ^ -27] in
    magnitude are returned unchanged by [sin] and give [1] by [cos] (the
    correctly rounded results, and what fdlibm returns); a cosine of a
    finite argument has magnitude at most [1]; [atan2(+0, x)] is [+0]
    for positive [x] and [atan2(y, NaN)] is [NaN], as ECMAScript
    prescribes. *)
Definition conforming (M : lib) : Prop :=
  (forall x, (abs x <? 0x1p-27) = true -> sin M x = x)
  /\ (forall x, (abs x <? 0x1p-27) = true -> cos M x = 1)
  /\ (forall x, is_finite x = true -> (abs (cos M x) <=? 1) = true)
  /\ (forall x, (0 <? x) = true -> atan2 M 0 x = 0)
  /\ (forall y, atan2 M y nan = nan).

(** A library tabulated at the arguments the instances use; it conforms. *)
Definition table : lib :=
  {| sin := fun x =>
       if abs x <? 0x1p-27 then x
       else if x =? 0x1.86f4291ecf2f3p+0 then 0x1.ff833f9da45f7p-1
       else if x =? 0x1.921fb54442d18p+0 then 1
       else 0;
     cos := fun x =>
       if abs x <? 0x1p-27 then 1
       else if abs x =? 0x1.86f4291ecf2f3p+0 then 0x1.65547c4694e32p-5
       else 0;
     atan2 := fun y x => if is_nan y || is_nan x then nan else 0 |}.

End Math.

(** [haversineDistance] over binary64 doubles. *)
Module Double.
Import Stdlib.Floats.Floats.
Local Open Scope float_scope.

Section WithMath.

Variable M : Math.lib.

Definition toRad (deg : float) : float := (deg * Math.PI) / 180.

(** The quantity [a] of [haversineDistance]. *)
Definition haversineA (lat1 lon1 lat2 lon2 : float) : float :=
  let dLat := toRad (lat2 - lat1) in
  let dLon := toRad (lon2 - lon1) in
  Math.sin M (dLat / 2) * Math.sin M (dLat / 2)
  + Math.cos M (toRad lat1) * Math.cos M (toRad lat2)
    * Math.sin M (dLon / 2) * Math.sin M (dLon / 2).

Definition haversineDistance (lat1 lon1 lat2 lon2 : float) : float :=
  let R := 6371 in
  let a := haversineA lat1 lon1 lat2 lon2 in
  let c := 2 * Math.atan2 M (sqrt a) (sqrt (1 - a)) in
  let d := R * c in
  d.

End WithMath.

(** Latitude in [-90, 90] and longitude in [-180, 180]. *)
Definition validCoord (lat lon : float) : bool :=
  (-90 <=? lat) && (lat <=? 90) && (-180 <=? lon) && (lon <=? 180).

(** Zero, or finite with [digits + exponent <= K]: the shape of a double
    of magnitude below [2 ^ K]. *)
Definition within (K : Z) (x : spec_float) : Prop :=
  match x with
  | S754_zero _ => True
  | S754_finite _ m e => (Zpos (digits2_pos m) + e <= K)%Z
  | _ => False
  end.


End Double.


(** ** Vocabulary of the statements *)

(** The role-detection call fails: [fetch] rejects, the status is not 2xx,
    or the body of a 2xx answer cannot be parsed. *)
Definition detectFailure (a : FetchResult Data.t) : bool :=
  match a with
  | NetworkError => true
  | Responded r =>
      negb (Res.ok r)
      || match Res.json r with
         | Res.JsonRejected => true
         | _ => false
         end
  end.

(** The body of a role-detection call that succeeds ([None] is the JSON
    value [null]). *)
Definition detectSuccess (a : FetchResult Data.t) (data : option Data.t)
  : Prop :=
  exists r,
    a = Responded r /\ Res.ok r = true /\
    match data with
    | Some d => Res.json r = Res.JsonObject d
    | None => Res.json r = Res.JsonNull
    end.

(** The address obtained from the IP lookup, if it produced one. *)
Definition lookupAddress (a : FetchResult IpData.t) : option string :=
  match a with
  | NetworkError => None
  | Responded r =>
      if Res.ok r
      then match Res.json r with
           | Res.JsonObject d =>
               match IpData.ip d with
               | Some s => if JS.truthy s then Some s else None
               | None => None
               end
           | _ => None
           end
      else None
  end.

(** The report call fails: [fetch] rejects or the status is not 2xx. *)
Definition reportFailure (a : FetchResult unit) : bool :=
  match a with
  | NetworkError => true
  | Responded r => negb (Res.ok r)
  end.

(** The automatic path of [detectRoleFlow] is the one taken. *)
Definition automatic (s : HomeState) : bool :=
  negb (useManual s && JS.truthy (manualIp s)).

(** The failure path read as leaving [source] as it was before the call. *)
Definition failurePreservesSource : Prop :=
  forall (net : Network) (ip : string) (w : World),
    detectFailure (detect net ip) = true ->
    RoleInfo.source (roleInfo (state (snd (callDetectEndpoint net ip w))))
    = RoleInfo.source (roleInfo (state w)).

(** The admin gate read as testing the role of the state the handler runs
    in, whichever render the handler comes from. *)
Definition navigationReadsCurrentRole : Prop :=
  forall (render : HomeState) (w : World),
    history (snd (handleAdminNavigate render w)) = history w ++ ["/admin"]
    <-> JS.toLowerCase (RoleInfo.role (roleInfo (state w))) = "admin".

(** A network on which every call is rejected. *)
Definition netDown : Network :=
  {| ipify := NetworkError;
     detect := fun _ => NetworkError;
     report := fun _ => NetworkError |}.

(** A network whose services answer: the lookup with [ip], the detection
    service with [status] and [body], the report service with 200. *)
Definition netUp (ip : option string) (status : Z) (body : Data.t) : Network :=
  {| ipify := Responded (Res.mk 200%Z (Some "") (Res.JsonObject (IpData.mk ip)));
     detect := fun _ =>
       Responded (Res.mk status (Some "") (Res.JsonObject body));
     report := fun _ => Responded (Res.mk 200%Z (Some "") Res.JsonNull) |}.

(** The world with a given role record, everything else as at mount time. *)
Definition worldWithRole (r : RoleInfo.t) : World :=
  {| state :=
       mkState r false None "" false false (mkPayload "" "") None;
     requests := [];
     timers := [];
     history := [];
     console := [] |}.

(** The world in which the report modal is open and filled in. *)
Definition worldReporting (p : ReportPayload) : World :=
  {| state :=
       mkState (RoleInfo.mk "user" (Some FALLBACK_IP) None (Some ""))
               false None "" false true p None;
     requests := [];
     timers := [];
     history := [];
     console := [] |}.

(** The address [detectRoleFlow] submits: the manual one when manual mode
    is on and an address was typed, otherwise the looked-up address or the
    fallback. *)
Definition submittedIp (net : Network) (s : HomeState) : string :=
  if useManual s && JS.truthy (manualIp s)
  then manualIp s
  else JS.nullish (lookupAddress (ipify net)) FALLBACK_IP.

(** [handleDetectClick] refuses to start: manual mode without an address. *)
Definition manualWithoutIp (s : HomeState) : bool :=
  useManual s && negb (JS.truthy (manualIp s)).

(** ** [BinMap]: where the map looks *)

(** [!!x] for a number read as a real: only zero is falsy. *)
Definition truthy_num (x : R) : bool :=
  if Req_dec_T x 0%R then false else true.

(** The [center] prop of [GoogleMap]:
    [selectedBin && selectedBin.lat && selectedBin.lng ? {lat, lng}
     : DEFAULT_CENTER]. *)
Definition mapCenter (selectedBin : option Bin.t) : R * R :=
  match selectedBin with
  | Some b =>
      if truthy_num (Bin.lat b) && truthy_num (Bin.lng b)
      then (Bin.lat b, Bin.lng b)
      else DEFAULT_CENTER
  | None => DEFAULT_CENTER
  end.

Inductive MapCall : Type :=
| PanTo (lat lng : R)
| SetZoom (zoom : Z).

(** The effect run when [selectedBin] changes.  [mapRef] is [None] while
    no map is loaded; otherwise it tells whether [panTo] and [setZoom]
    raise.  The result lists the calls made on the map; an exception ends
    the [try] block and is swallowed by the empty [catch]. *)
Definition recenterEffect (mapRef : option (bool * bool))
  (selectedBin : option Bin.t) : list MapCall :=
  match mapRef, selectedBin with
  | Some (panToRaises, _), Some b =>
      PanTo (Bin.lat b) (Bin.lng b)
      :: (if panToRaises then [] else [SetZoom 16])
  | _, _ => []
  end.

(** ** Marker icons *)

(** [encodeURIComponent] is the one place where a string that is not
    well-formed Unicode matters, so its argument is held as its UTF-16
    code units (numbers below 65536); its result is ASCII. *)
Module URI.

(** The characters [encodeURIComponent] leaves alone: letters, digits and
    the marks [- _ . ! ~ * ' ( )]. *)
Definition unreserved (c : ascii) : bool :=
  let n := nat_of_ascii c in
  ((48 <=? n)%nat && (n <=? 57)%nat)
  || ((65 <=? n)%nat && (n <=? 90)%nat)
  || ((97 <=? n)%nat && (n <=? 122)%nat)
  || existsb (Ascii.eqb c) (list_ascii_of_string "-_.!~*'()").

Definition unreserved_unit (u : N) : bool :=
  (u <? 128)%N && unreserved (ascii_of_N u).

Definition isHighSurrogate (u : N) : bool :=
  (0xD800 <=? u)%N && (u <=? 0xDBFF)%N.

Definition isLowSurrogate (u : N) : bool :=
  (0xDC00 <=? u)%N && (u <=? 0xDFFF)%N.

Definition hexDigit (n : nat) : ascii :=
  nth n (list_ascii_of_string "0123456789ABCDEF") "0"%char.

(** One octet as [%XX]. *)
Definition escape (octet : N) (rest : string) : string :=
  String "%"
    (String (hexDigit (N.to_nat (octet / 16)))
       (String (hexDigit (N.to_nat (octet mod 16))) rest)).

(** The UTF-8 octets of a code point. *)
Definition utf8 (cp : N) : list N :=
  (if cp <? 0x80 then [cp]
   else if cp <? 0x800 then [0xC0 + cp / 64; 0x80 + cp mod 64]
   else if cp <? 0x10000
        then [0xE0 + cp / 4096; 0x80 + (cp / 64) mod 64; 0x80 + cp mod 64]
        else [0xF0 + cp / 262144; 0x80 + (cp / 4096) mod 64;
              0x80 + (cp / 64) mod 64; 0x80 + cp mod 64])%N.

Definition escapeAll (octets : list N) (rest : string) : string :=
  fold_right escape rest octets.

(** [encodeURIComponent]; [None] is the [URIError] raised on a surrogate
    that is not part of a pair. *)
Fixpoint encodeURIComponent (s : list N) : option string :=
  match s with
  | [] => Some EmptyString
  | u :: r =>
      if unreserved_unit u
      then option_map (String (ascii_of_N u)) (encodeURIComponent r)
      else if isLowSurrogate u then None
      else if isHighSurrogate u
      then match r with
           | d :: r' =>
               if isLowSurrogate d
               then option_map
                      (escapeAll
                         (utf8 ((u - 0xD800) * 0x400 + (d - 0xDC00)
                                + 0x10000)%N))
                      (encodeURIComponent r')
               else None
           | [] => None
           end
      else option_map (escapeAll (utf8 u)) (encodeURIComponent r)
  end.

(** No surrogate outside a pair. *)
Fixpoint wellFormed (s : list N) : bool :=
  match s with
  | [] => true
  | u :: r =>
      if isLowSurrogate u then false
      else if isHighSurrogate u
      then match r with
           | d :: r' => isLowSurrogate d && wellFormed r'
           | [] => false
           end
      else wellFormed r
  end.

(** The code units of an ASCII literal. *)
Definition units (s : string) : list N :=
  map N_of_ascii (list_ascii_of_string s).

End URI.

Definition dquote : string := String (ascii_of_nat 34) EmptyString.
Definition newline : string := String (ascii_of_nat 10) EmptyString.

(** The template literal of [createMarkerSvgDataUrl]. *)
Definition markerSvg (color : list N) : list N :=
  URI.units
    ("<svg xmlns='http://www.w3.org/2000/svg' width='48' height='48' viewBox='0 0 24 24'>"
     ++ newline
     ++ "    <path d=" ++ dquote
     ++ "M12 2c2.761 0 5 2.239 5 5 0 5-5 11-5 11s-5-6-5-11c0-2.761 2.239-5 5-5z"
     ++ dquote ++ " fill=" ++ dquote)%string
  ++ color
  ++ URI.units
       (dquote ++ "/>"
        ++ newline
        ++ "    <circle cx=" ++ dquote ++ "12" ++ dquote
        ++ " cy=" ++ dquote ++ "9" ++ dquote
        ++ " r=" ++ dquote ++ "2.5" ++ dquote
        ++ " fill=" ++ dquote ++ "#fff" ++ dquote ++ "/>"
        ++ newline
        ++ "  </svg>")%string.

Definition DATA_URL_PREFIX : string := "data:image/svg+xml;charset=UTF-8,".

(** [color] is [None] when the argument is omitted; the result is [None]
    when [encodeURIComponent] raises. *)
Definition createMarkerSvgDataUrl (color : option (list N)) : option string :=
  option_map (String.append DATA_URL_PREFIX)
    (URI.encodeURIComponent
       (markerSvg (JS.nullish color (URI.units "#ef4444")))).

(** The icon of a bin's marker. *)
Definition markerIcon (b : Bin.t) : option string :=
  createMarkerSvgDataUrl (Some (URI.units (BinMap.color b))).

(** A character that may appear in the encoded part of the URL. *)
Definition urlSafe (c : ascii) : Prop :=
  URI.unreserved c = true \/ c = "%"%char.

(** * Properties *)

(** ** Strings *)

Lemma or_else_empty (s : string) : JS.or_else (Some s) "" = s.
Proof.
  unfold JS.or_else, JS.truthy.
  destruct (String.eqb_spec s ""); simpl; congruence.
Qed.

Lemma normalizedRole_lower (s : HomeState) :
  normalizedRole s = JS.toLowerCase (RoleInfo.role (roleInfo s)).
Proof. unfold normalizedRole. now rewrite or_else_empty. Qed.

Example lower_Admin : JS.toLowerCase "Admin" = "admin".
Proof. reflexivity. Qed.

Example lower_OVERFLOW : JS.toLowerCase "OVERFLOW" = "overflow".
Proof. reflexivity. Qed.

(** The last letter of the argument is U+212A KELVIN SIGN. *)
Example lower_kelvin : JS.toLowerCase "TRUCK" = "truck".
Proof. reflexivity. Qed.

(** ** Running handlers *)

Ltac run_handler :=
  unfold try_finally, try_catch, bind, ret, throw, fetch, res_json, prop,
    setRoleInfo, updateRoleInfo, setLoading, setError, setShowReport,
    setReportPayload, setReportStatus, setTimeout, navigate, console_log,
    modify;
  simpl.

Example mount_with_network_down :
  RoleInfo.role
    (roleInfo (state (snd (detectRoleFlow netDown initialState initialWorld))))
  = "guest"
  /\ requests (snd (detectRoleFlow netDown initialState initialWorld))
     = [GetIpify; PostDetect "203.0.173.5"].
Proof. split; reflexivity. Qed.

Example mount_with_admin_answer :
  let net := netUp (Some "10.0.0.7") 200
               (Data.mk (Some "Admin") None (Some "u1") None) in
  let w := snd (detectRoleFlow net initialState initialWorld) in
  roleInfo (state w)
  = RoleInfo.mk "Admin" (Some "10.0.0.7") (Some "u1") (Some "")
  /\ history (snd (handleAdminNavigate (state w) w)) = ["/admin"].
Proof. split; reflexivity. Qed.

(** ** Role detection *)

(** C1. Whatever the IP submitted and whatever the state before, when the
    role-detection call fails (the request is rejected, the status is not
    2xx, or the body cannot be parsed) [callDetectEndpoint] completes
    without raising, the role is ["guest"], the source is the IP that was
    attempted, and the error banner is set. *)
Theorem callDetectEndpoint_failure (net : Network) (ip : string) (w : World)
  (Hfail : detectFailure (detect net ip) = true) :
  fst (callDetectEndpoint net ip w) = Ok tt
  /\ RoleInfo.role (roleInfo (state (snd (callDetectEndpoint net ip w))))
     = "guest"
  /\ RoleInfo.source (roleInfo (state (snd (callDetectEndpoint net ip w))))
     = Some ip
  /\ error (state (snd (callDetectEndpoint net ip w))) = Some DETECT_FAILED
  /\ requests (snd (callDetectEndpoint net ip w))
     = requests w ++ [PostDetect ip].
Proof.
  unfold detectFailure in Hfail.
  unfold callDetectEndpoint. run_handler.
  destruct (detect net ip) as [| r]; simpl.
  - repeat split.
  - destruct (Res.ok r); simpl in *.
    + destruct (Res.json r); simpl; try discriminate. repeat split.
    + repeat split.
Qed.

Lemma callDetectEndpoint_failure_witness :
  detectFailure (detect (netUp None 503 (Data.mk None None None None)) "198.51.100.4") = true
  /\ RoleInfo.source
       (roleInfo (state (snd (callDetectEndpoint
          (netUp None 503 (Data.mk None None None None))
          "198.51.100.4" initialWorld))))
     = Some "198.51.100.4".
Proof.
  split; [reflexivity |].
  apply (callDetectEndpoint_failure
           (netUp None 503 (Data.mk None None None None))
           "198.51.100.4" initialWorld).
  reflexivity.
Defined.

Lemma detectCalls_app (l1 l2 : list Request) :
  detectCalls (l1 ++ l2) = detectCalls l1 ++ detectCalls l2.
Proof.
  induction l1 as [| x l1 IH]; [reflexivity |].
  destruct x; simpl; now rewrite IH.
Qed.

(** [callDetectEndpoint] never raises and sends exactly one request. *)
Lemma callDetectEndpoint_runs (net : Network) (ip : string) (w : World) :
  exists w',
    callDetectEndpoint net ip w = (Ok tt, w')
    /\ requests w' = requests w ++ [PostDetect ip].
Proof.
  unfold callDetectEndpoint. run_handler.
  destruct (detect net ip) as [| r]; simpl.
  - eexists; split; reflexivity.
  - destruct (Res.ok r); simpl.
    + destruct (Res.json r); simpl; eexists; split; reflexivity.
    + eexists; split; reflexivity.
Qed.

(** C2. On the automatic path, whatever the IP lookup does (the request is
    rejected, the answer is not ok, the body cannot be parsed, is [null],
    or has no usable [ip] field), [detectRoleFlow] completes without
    raising and sends exactly one role-detection request; that request
    carries the looked-up address when there is one and ["203.0.173.5"]
    otherwise. *)
Theorem detectRoleFlow_automatic (net : Network) (s : HomeState) (w : World)
  (Hauto : automatic s = true) :
  fst (detectRoleFlow net s w) = Ok tt
  /\ detectCalls (requests (snd (detectRoleFlow net s w)))
     = detectCalls (requests w)
       ++ [JS.nullish (lookupAddress (ipify net)) FALLBACK_IP]
  /\ (ipify net = NetworkError -> lookupAddress (ipify net) = None)
  /\ (forall r, ipify net = Responded r -> Res.ok r = false ->
        lookupAddress (ipify net) = None)
  /\ (forall r d, ipify net = Responded r ->
        Res.json r = Res.JsonObject d -> IpData.ip d = None ->
        lookupAddress (ipify net) = None).
Proof.
  unfold automatic in Hauto. apply negb_true_iff in Hauto.
  rewrite <- and_assoc. split.
  2: { split; [intros -> | split; [intros r -> Hok | intros r d -> Hj Hd]].
       - reflexivity.
       - simpl. now rewrite Hok.
       - simpl. rewrite Hj, Hd. now destruct (Res.ok r). }
  unfold detectRoleFlow. run_handler. rewrite Hauto.
  destruct (ipify net) as [| r]; simpl.
  2: destruct (Res.ok r); simpl.
  2: destruct (Res.json r) as [| | d]; simpl.
  4: destruct (IpData.ip d) as [adr |]; simpl.
  4: unfold JS.or_else; destruct (JS.truthy adr) eqn:Hs; simpl; rewrite ?Hs;
     simpl.
  all: match goal with
       | |- context [callDetectEndpoint ?n ?i ?w1] =>
           destruct (callDetectEndpoint_runs n i w1) as (w' & Hrun & Hreq);
           simpl in Hreq; rewrite Hrun; simpl; rewrite Hreq
       end.
  all: rewrite !detectCalls_app; simpl; rewrite ?app_nil_r.
  all: split; reflexivity.
Qed.

Lemma detectRoleFlow_automatic_witness :
  automatic initialState = true
  /\ detectCalls
       (requests (snd (detectRoleFlow netDown initialState initialWorld)))
     = ["203.0.173.5"].
Proof.
  split; [reflexivity |].
  exact (proj1 (proj2 (detectRoleFlow_automatic netDown initialState
                         initialWorld eq_refl))).
Defined.

(** ** Access gating *)

(** The decision of the handler is the one of its own guard, whatever the
    world it runs in. *)
Lemma handleAdminNavigate_run (s : HomeState) (w : World) :
  fst (handleAdminNavigate s w) = Ok tt
  /\ (JS.toLowerCase (RoleInfo.role (roleInfo s)) = "admin" ->
      history (snd (handleAdminNavigate s w)) = history w ++ ["/admin"]
      /\ state (snd (handleAdminNavigate s w)) = state w
      /\ timers (snd (handleAdminNavigate s w)) = timers w)
  /\ (JS.toLowerCase (RoleInfo.role (roleInfo s)) <> "admin" ->
      history (snd (handleAdminNavigate s w)) = history w
      /\ error (state (snd (handleAdminNavigate s w)))
         = Some "Access denied — admin IP not detected."
      /\ timers (snd (handleAdminNavigate s w))
         = timers w ++ [(2500%Z, ClearError)]).
Proof.
  unfold handleAdminNavigate, showAdminButton.
  rewrite normalizedRole_lower.
  destruct (String.eqb_spec (JS.toLowerCase (RoleInfo.role (roleInfo s)))
              "admin") as [Heq | Hne]; run_handler.
  - split; [reflexivity |]. split; [| contradiction].
    intros _. destruct w as [[ri lo er mi um sr rp rs] rq tm hi co].
    repeat split.
  - split; [reflexivity |]. split; [contradiction |].
    intros _. repeat split.
Qed.

(** C3, as stated, fails: the handler of a render in which the role was
    ["Admin"] navigates although the role has become ["guest"] by the time
    it runs. *)
Lemma navigationReadsCurrentRole_counterexample :
  ~ navigationReadsCurrentRole.
Proof.
  intros H.
  specialize (H (state (worldWithRole (RoleInfo.mk "Admin" None None None)))
                (worldWithRole (RoleInfo.mk "guest" None None None))).
  destruct H as [H _]. specialize (H eq_refl). discriminate H.
Qed.

(** C3, amended. The admin navigation handler of a render pushes the route
    ["/admin"] exactly when the role that render saw, lowercased, is
    ["admin"] (so ["Admin"] succeeds), whatever the state has become since.
    Otherwise the handler itself refuses: the history is left as it was,
    the denial notice becomes the error, and a timer of 2500 ms is armed
    whose callback clears the error.  The check sits inside the handler
    and tests [showAdminButton], the constant computed at render time. *)
Theorem handleAdminNavigate_gate (render : HomeState) (w : World) :
  fst (handleAdminNavigate render w) = Ok tt
  /\ (history (snd (handleAdminNavigate render w))
      = history w ++ ["/admin"]
      <-> JS.toLowerCase (RoleInfo.role (roleInfo render)) = "admin")
  /\ (JS.toLowerCase (RoleInfo.role (roleInfo render)) <> "admin" ->
      history (snd (handleAdminNavigate render w)) = history w
      /\ error (state (snd (handleAdminNavigate render w)))
         = Some "Access denied — admin IP not detected."
      /\ timers (snd (handleAdminNavigate render w))
         = timers w ++ [(2500%Z, ClearError)]
      /\ error (state (snd (runCallback ClearError
                              (snd (handleAdminNavigate render w)))))
         = None).
Proof.
  destruct (handleAdminNavigate_run render w) as (Hok & Hyes & Hno).
  split; [exact Hok |]. split.
  - split.
    + intros Hh.
      destruct (string_dec
                  (JS.toLowerCase (RoleInfo.role (roleInfo render)))
                  "admin") as [Heq | Hne]; [exact Heq | exfalso].
      destruct (Hno Hne) as (Hsame & _). rewrite Hsame in Hh.
      apply (f_equal (@List.length string)) in Hh.
      rewrite length_app in Hh. simpl in Hh. lia.
    + intros Heq. exact (proj1 (Hyes Heq)).
  - intros Hne. destruct (Hno Hne) as (Hh & He & Ht).
    repeat split; assumption || reflexivity.
Qed.

Lemma handleAdminNavigate_gate_witness :
  history (snd (handleAdminNavigate
                  (state (worldWithRole (RoleInfo.mk "Admin" None None None)))
                  (worldWithRole (RoleInfo.mk "Admin" None None None))))
  = ["/admin"]
  /\ error (state (snd (handleAdminNavigate
       (state (worldWithRole (RoleInfo.mk "user" None None None)))
       (worldWithRole (RoleInfo.mk "user" None None None)))))
     = Some "Access denied — admin IP not detected.".
Proof.
  split.
  - apply (proj1 (proj2 (handleAdminNavigate_gate
              (state (worldWithRole (RoleInfo.mk "Admin" None None None)))
              (worldWithRole (RoleInfo.mk "Admin" None None None))))).
    reflexivity.
  - apply (proj2 (proj2 (handleAdminNavigate_gate
              (state (worldWithRole (RoleInfo.mk "user" None None None)))
              (worldWithRole (RoleInfo.mk "user" None None None))))).
    discriminate.
Defined.

(** ** Reports *)

(** C8. When the report call fails (the request is rejected or the status
    is not 2xx), [submitReport] completes without raising, the report
    status is the one of type ["error"], [showReport] keeps the value it
    had (an open modal stays open) and the report payload is unchanged.
    The toast is cleared by a timer of 3000 ms. *)
Theorem submitReport_failure (net : Network) (w : World)
  (Hfail : reportFailure (report net (reportPayload (state w))) = true) :
  fst (submitReport net (state w) w) = Ok tt
  /\ reportStatus (state (snd (submitReport net (state w) w)))
     = Some (ReportStatus.mk "error"
               "Could not submit report (backend may be missing).")
  /\ showReport (state (snd (submitReport net (state w) w)))
     = showReport (state w)
  /\ reportPayload (state (snd (submitReport net (state w) w)))
     = reportPayload (state w)
  /\ requests (snd (submitReport net (state w) w))
     = requests w ++ [PostReport (reportPayload (state w))]
  /\ timers (snd (submitReport net (state w) w))
     = timers w ++ [(3000%Z, ClearReportStatus)].
Proof.
  unfold reportFailure in Hfail.
  unfold submitReport. run_handler.
  destruct (report net (reportPayload (state w))) as [| r]; simpl.
  - repeat split.
  - apply negb_true_iff in Hfail. rewrite Hfail. simpl. repeat split.
Qed.

Lemma submitReport_failure_witness :
  reportFailure
    (report netDown (reportPayload (state (worldReporting
                                             (mkPayload "BIN-A" "full")))))
  = true
  /\ showReport
       (state (snd (submitReport netDown
                      (state (worldReporting (mkPayload "BIN-A" "full")))
                      (worldReporting (mkPayload "BIN-A" "full")))))
     = true
  /\ reportPayload
       (state (snd (submitReport netDown
                      (state (worldReporting (mkPayload "BIN-A" "full")))
                      (worldReporting (mkPayload "BIN-A" "full")))))
     = mkPayload "BIN-A" "full".
Proof.
  split; [reflexivity |].
  pose proof (submitReport_failure netDown
                (worldReporting (mkPayload "BIN-A" "full")) eq_refl)
    as (_ & _ & Hshow & Hpayload & _).
  split; [exact Hshow | exact Hpayload].
Defined.

Example submitReport_success_closes_modal :
  let w0 := worldReporting (mkPayload "BIN-A" "full") in
  let w := snd (submitReport
                  (netUp None 200 (Data.mk None None None None))
                  (state w0) w0) in
  showReport (state w) = false
  /\ reportPayload (state w) = mkPayload "" "".
Proof. split; reflexivity. Qed.

(** ** Lifecycle of the role record *)

(** C9, as stated, fails: at mount time [source] is [null]; a failed call
    for ["203.0.173.5"] leaves it equal to that address. *)
Lemma failurePreservesSource_counterexample : ~ failurePreservesSource.
Proof.
  intros H.
  specialize (H netDown "203.0.173.5" initialWorld eq_refl).
  discriminate H.
Qed.

(** C9, amended. A successful call replaces the role record wholesale: the
    four fields come from the response, with [role] defaulting to ["user"],
    [source] to the submitted IP, [id] to [null] and [description] to the
    empty string, whatever the record was before.  A failed call forces
    [role] to ["guest"], sets [source] to the submitted IP and keeps [id]
    and [description] as they were. *)
Theorem callDetectEndpoint_roleInfo (net : Network) (ip : string) (w : World) :
  (forall data, detectSuccess (detect net ip) data ->
     roleInfo (state (snd (callDetectEndpoint net ip w)))
     = {| RoleInfo.role := JS.nullish (JS.opt_chain data Data.role) "user";
          RoleInfo.source :=
            Some (JS.nullish (JS.opt_chain data Data.source) ip);
          RoleInfo.id := JS.opt_chain data Data.id;
          RoleInfo.description :=
            Some (JS.nullish (JS.opt_chain data Data.description) "") |})
  /\ (detectFailure (detect net ip) = true ->
      roleInfo (state (snd (callDetectEndpoint net ip w)))
      = {| RoleInfo.role := "guest";
           RoleInfo.source := Some ip;
           RoleInfo.id := RoleInfo.id (roleInfo (state w));
           RoleInfo.description :=
             RoleInfo.description (roleInfo (state w)) |}).
Proof.
  split.
  - intros data (r & Hr & Hok & Hj).
    unfold callDetectEndpoint. run_handler. rewrite Hr. simpl.
    rewrite Hok. simpl.
    destruct data as [d |]; rewrite Hj; reflexivity.
  - intros Hfail. unfold detectFailure in Hfail.
    unfold callDetectEndpoint. run_handler.
    destruct (detect net ip) as [| r]; simpl; [reflexivity |].
    destruct (Res.ok r); simpl in *; [| reflexivity].
    destruct (Res.json r); simpl; try discriminate. reflexivity.
Qed.

Lemma callDetectEndpoint_roleInfo_witness :
  roleInfo (state (snd (callDetectEndpoint
     (netUp None 200 (Data.mk None None None None)) "192.0.2.1"
     (worldWithRole (RoleInfo.mk "admin" (Some "10.1.1.1") (Some "a7")
                       (Some "ops"))))))
  = RoleInfo.mk "user" (Some "192.0.2.1") None (Some "")
  /\ roleInfo (state (snd (callDetectEndpoint netDown "192.0.2.1"
       (worldWithRole (RoleInfo.mk "admin" (Some "10.1.1.1") (Some "a7")
                         (Some "ops"))))))
     = RoleInfo.mk "guest" (Some "192.0.2.1") (Some "a7") (Some "ops").
Proof.
  split.
  - apply (proj1 (callDetectEndpoint_roleInfo
              (netUp None 200 (Data.mk None None None None)) "192.0.2.1"
              (worldWithRole (RoleInfo.mk "admin" (Some "10.1.1.1")
                                (Some "a7") (Some "ops"))))
             (Some (Data.mk None None None None))).
    eexists. split; [reflexivity |]. split; reflexivity.
  - apply (proj2 (callDetectEndpoint_roleInfo netDown "192.0.2.1"
              (worldWithRole (RoleInfo.mk "admin" (Some "10.1.1.1")
                                (Some "a7") (Some "ops"))))).
    reflexivity.
Defined.

(** Every call is a success or a failure in the sense of the two cases. *)
Lemma detect_success_or_failure (a : FetchResult Data.t) :
  detectFailure a = true \/ exists data, detectSuccess a data.
Proof.
  destruct a as [| r]; simpl; [now left |].
  destruct (Res.ok r) eqn:Hok; simpl; [| now left].
  destruct (Res.json r) as [| | d] eqn:Hj; [now left | right | right].
  - exists None. exists r. now rewrite Hj.
  - exists (Some d). exists r. now rewrite Hj.
Qed.

(** ** Marker colours *)

(** C10. The marker colour is a function of the bin's status, lowercased,
    an absent status counting as the empty string: ["overflow"] and
    ["full"] give red, ["ok"] and ["normal"] give blue, anything else the
    fallback yellow; two statuses that differ only by case give the same
    colour. *)
Theorem color_by_status (b : Bin.t) :
  let st := JS.toLowerCase (JS.or_else (Bin.status b) "") in
  (st = "overflow" \/ st = "full" -> BinMap.color b = "#ef4444")
  /\ (st = "ok" \/ st = "normal" -> BinMap.color b = "#0ea5e9")
  /\ (st <> "overflow" -> st <> "full" -> st <> "ok" -> st <> "normal" ->
      BinMap.color b = "#f59e0b")
  /\ (Bin.status b = None -> BinMap.color b = "#f59e0b")
  /\ (forall b' : Bin.t,
        JS.toLowerCase (JS.or_else (Bin.status b') "")
        = JS.toLowerCase (JS.or_else (Bin.status b) "") ->
        BinMap.color b' = BinMap.color b).
Proof.
  intros st. unfold BinMap.color. fold st.
  split; [| split; [| split; [| split]]].
  - intros [-> | ->]; reflexivity.
  - intros [-> | ->]; reflexivity.
  - intros H1 H2 H3 H4.
    apply String.eqb_neq in H1, H2, H3, H4.
    now rewrite H1, H2, H3, H4.
  - intros Hnone. subst st. rewrite Hnone. reflexivity.
  - intros b' ->. reflexivity.
Qed.

Lemma color_by_status_witness :
  BinMap.color (Bin.mk "BIN-C" "Bin C" 12.9702%R 77.5930%R (Some "FULL")
                  "0.85 km") = "#ef4444"
  /\ BinMap.color (Bin.mk "BIN-B" "Bin B" 12.9710%R 77.5960%R (Some "Ok")
                     "0.10 km") = "#0ea5e9"
  /\ BinMap.color (Bin.mk "BIN-D" "Bin D" 12.9728%R 77.5960%R
                     (Some "partially-filled") "0.2 km") = "#f59e0b".
Proof.
  split; [| split].
  - apply (proj1 (color_by_status _)). right. reflexivity.
  - apply (proj1 (proj2 (color_by_status _))). left. reflexivity.
  - apply (proj1 (proj2 (proj2 (color_by_status _)))); discriminate.
Defined.

(** A status spelled with U+212A KELVIN SIGN lowercases to ["ok"]. *)
Example color_kelvin :
  BinMap.color (Bin.mk "BIN-K" "Bin K" 12.9721%R 77.5948%R (Some "OK")
                  "0.05 km") = "#0ea5e9".
Proof. reflexivity. Qed.

Example demoBins_colors :
  map BinMap.color demoBins = ["#ef4444"; "#0ea5e9"; "#ef4444"].
Proof. reflexivity. Qed.

(** ** Proximity *)

Section Haversine.

Local Open Scope R_scope.

Lemma toRad_linear (d : R) : toRad d = d * (PI / 180).
Proof. unfold toRad. field. Qed.


(** Between -b and b degrees is between -b*PI/180 and b*PI/180 radians. *)
Lemma toRad_bounds (b d : R) :
  - b <= d <= b -> - (b * (PI / 180)) <= toRad d <= b * (PI / 180).
Proof.
  intros [Hl Hu]. rewrite toRad_linear.
  pose proof PI_RGT_0 as Hpi.
  assert (Hk : 0 < PI / 180) by lra.
  split; nra.
Qed.

End Haversine.

Section HaversineClaims.

Local Open Scope R_scope.


Lemma haversineA_sym (lat1 lon1 lat2 lon2 : R) :
  haversineA lat1 lon1 lat2 lon2 = haversineA lat2 lon2 lat1 lon1.
Proof.
  unfold haversineA. cbv zeta.
  replace (toRad (lat1 - lat2) / 2) with (- (toRad (lat2 - lat1) / 2))
    by (unfold toRad; field).
  replace (toRad (lon1 - lon2) / 2) with (- (toRad (lon2 - lon1) / 2))
    by (unfold toRad; field).
  rewrite !sin_neg. ring.
Qed.

(** C6. Over the reals the distance is exactly symmetric:
    [distanceKm(a, b) = distanceKm(b, a)] for all coordinate pairs. *)
Theorem haversineDistance_sym (lat1 lon1 lat2 lon2 : R) :
  haversineDistance lat1 lon1 lat2 lon2
  = haversineDistance lat2 lon2 lat1 lon1.
Proof.
  unfold haversineDistance. cbv zeta.
  now rewrite (haversineA_sym lat1 lon1 lat2 lon2).
Qed.

End HaversineClaims.


(** * Further properties of the handlers *)

(** ** [callDetectEndpoint] *)

Lemma callDetectEndpoint_after_failure (net : Network) (ip : string)
  (w : World) :
  detectFailure (detect net ip) = true ->
  roleInfo (state (snd (callDetectEndpoint net ip w)))
  = RoleInfo.mk "guest" (Some ip) (RoleInfo.id (roleInfo (state w)))
      (RoleInfo.description (roleInfo (state w)))
  /\ error (state (snd (callDetectEndpoint net ip w))) = Some DETECT_FAILED.
Proof.
  unfold callDetectEndpoint, detectFailure. run_handler.
  destruct (detect net ip) as [| r]; simpl; [split; reflexivity |].
  destruct (Res.ok r); simpl; [| split; reflexivity].
  destruct (Res.json r); simpl; try discriminate. split; reflexivity.
Qed.

Lemma callDetectEndpoint_after_success (net : Network) (ip : string)
  (w : World) (data : option Data.t) :
  detectSuccess (detect net ip) data ->
  roleInfo (state (snd (callDetectEndpoint net ip w)))
  = RoleInfo.mk (JS.nullish (JS.opt_chain data Data.role) "user")
      (Some (JS.nullish (JS.opt_chain data Data.source) ip))
      (JS.opt_chain data Data.id)
      (Some (JS.nullish (JS.opt_chain data Data.description) "")).
Proof.
  intros (r & Hr & Hok & Hj).
  unfold callDetectEndpoint. run_handler. rewrite Hr. simpl.
  rewrite Hok. simpl.
  destruct data as [d |]; rewrite Hj; reflexivity.
Qed.

Lemma callDetectEndpoint_outside (net : Network) (ip : string) (w : World) :
  timers (snd (callDetectEndpoint net ip w)) = timers w
  /\ history (snd (callDetectEndpoint net ip w)) = history w.
Proof.
  unfold callDetectEndpoint. run_handler.
  destruct (detect net ip) as [| r]; simpl; [split; reflexivity |].
  destruct (Res.ok r); simpl; [| split; reflexivity].
  destruct (Res.json r); simpl; split; reflexivity.
Qed.

(** After every call the spinner is off, the error banner shows the
    failure text exactly when the call failed (and is cleared otherwise),
    and [source] is set. *)
Theorem callDetectEndpoint_settles (net : Network) (ip : string) (w : World) :
  loading (state (snd (callDetectEndpoint net ip w))) = false
  /\ error (state (snd (callDetectEndpoint net ip w)))
     = (if detectFailure (detect net ip) then Some DETECT_FAILED else None)
  /\ RoleInfo.source (roleInfo (state (snd (callDetectEndpoint net ip w))))
     <> None.
Proof.
  unfold callDetectEndpoint, detectFailure. run_handler.
  destruct (detect net ip) as [| r]; simpl.
  - repeat split. discriminate.
  - destruct (Res.ok r); simpl.
    + destruct (Res.json r); simpl; repeat split; discriminate.
    + repeat split. discriminate.
Qed.

(** A detection call leaves the manual-IP form, the report modal, the
    pending timers and the navigation history as they were; the console is
    written only when the call fails. *)
Theorem callDetectEndpoint_frame (net : Network) (ip : string) (w : World) :
  manualIp (state (snd (callDetectEndpoint net ip w))) = manualIp (state w)
  /\ useManual (state (snd (callDetectEndpoint net ip w)))
     = useManual (state w)
  /\ showReport (state (snd (callDetectEndpoint net ip w)))
     = showReport (state w)
  /\ reportPayload (state (snd (callDetectEndpoint net ip w)))
     = reportPayload (state w)
  /\ reportStatus (state (snd (callDetectEndpoint net ip w)))
     = reportStatus (state w)
  /\ timers (snd (callDetectEndpoint net ip w)) = timers w
  /\ history (snd (callDetectEndpoint net ip w)) = history w
  /\ (console (snd (callDetectEndpoint net ip w)) = console w
      <-> detectFailure (detect net ip) = false).
Proof.
  assert (Hgrow : forall (l : list (string * exn)) x, l ++ [x] = l -> False).
  { intros l x H. apply (f_equal (@List.length _)) in H.
    rewrite length_app in H. simpl in H. lia. }
  unfold callDetectEndpoint, detectFailure. run_handler.
  destruct (detect net ip) as [| r]; simpl.
  - repeat split; try discriminate. intros H. now apply Hgrow in H.
  - destruct (Res.ok r); simpl.
    + destruct (Res.json r); simpl; repeat split; try discriminate;
        intros H; now apply Hgrow in H.
    + repeat split; try discriminate. intros H. now apply Hgrow in H.
Qed.

(** ** [detectRoleFlow] and [handleDetectClick] *)

Lemma lookupAddress_truthy (a : FetchResult IpData.t) (adr : string) :
  lookupAddress a = Some adr -> JS.truthy adr = true.
Proof.
  unfold lookupAddress.
  destruct a as [| r]; [discriminate |].
  destruct (Res.ok r); [| discriminate].
  destruct (Res.json r) as [| | d]; try discriminate.
  destruct (IpData.ip d) as [x |]; [| discriminate].
  destruct (JS.truthy x) eqn:E; [| discriminate].
  intros [= <-]. exact E.
Qed.

Lemma submittedIp_truthy (net : Network) (s : HomeState) :
  JS.truthy (submittedIp net s) = true.
Proof.
  unfold submittedIp.
  destruct (useManual s); simpl.
  - destruct (JS.truthy (manualIp s)) eqn:E; [exact E |].
    destruct (lookupAddress (ipify net)) as [a |] eqn:L; simpl;
      [exact (lookupAddress_truthy _ _ L) | reflexivity].
  - destruct (lookupAddress (ipify net)) as [a |] eqn:L; simpl;
      [exact (lookupAddress_truthy _ _ L) | reflexivity].
Qed.

(** In manual mode with an address typed in, the flow skips the IP lookup:
    the only request it sends is the role detection for that address. *)
Theorem detectRoleFlow_manual (net : Network) (s : HomeState) (w : World)
  (Hmanual : useManual s = true) (Hip : manualIp s <> "") :
  fst (detectRoleFlow net s w) = Ok tt
  /\ requests (snd (detectRoleFlow net s w))
     = requests w ++ [PostDetect (manualIp s)].
Proof.
  assert (Ht : JS.truthy (manualIp s) = true).
  { unfold JS.truthy. apply negb_true_iff. now apply String.eqb_neq. }
  unfold detectRoleFlow. run_handler. rewrite Hmanual, Ht. simpl.
  match goal with
  | |- context [callDetectEndpoint ?n ?i ?w1] =>
      destruct (callDetectEndpoint_runs n i w1) as (w' & Hrun & Hreq);
      simpl in Hreq; rewrite Hrun; simpl; rewrite Hreq
  end.
  split; reflexivity.
Qed.

Lemma detectRoleFlow_manual_witness :
  requests (snd (detectRoleFlow netDown
     (mkState (RoleInfo.mk "detecting" None None None) false None
              "198.51.100.4" true false (mkPayload "" "") None)
     initialWorld))
  = [PostDetect "198.51.100.4"].
Proof.
  apply (detectRoleFlow_manual netDown
           (mkState (RoleInfo.mk "detecting" None None None) false None
                    "198.51.100.4" true false (mkPayload "" "") None)
           initialWorld).
  - reflexivity.
  - discriminate.
Defined.

Lemma detectRoleFlow_runs (net : Network) (s : HomeState) (w : World) :
  fst (detectRoleFlow net s w) = Ok tt
  /\ loading (state (snd (detectRoleFlow net s w))) = false
  /\ detectCalls (requests (snd (detectRoleFlow net s w)))
     = detectCalls (requests w) ++ [submittedIp net s].
Proof.
  repeat split.
  all: unfold submittedIp, detectRoleFlow; run_handler.
  all: destruct (useManual s && JS.truthy (manualIp s)); simpl.
  all: try (destruct (ipify net) as [| r]; simpl).
  all: try (destruct (Res.ok r); simpl).
  all: try (destruct (Res.json r) as [| | d]; simpl).
  all: try (destruct (IpData.ip d) as [adr |]; simpl).
  all: try (unfold JS.or_else; destruct (JS.truthy adr) eqn:Hs; simpl;
            rewrite ?Hs; simpl).
  all: match goal with
       | |- context [callDetectEndpoint ?n ?i ?w1] =>
           destruct (callDetectEndpoint_runs n i w1) as (w' & Hrun & Hreq);
           simpl in Hreq; rewrite Hrun; simpl; rewrite ?Hreq
       end.
  all: rewrite ?detectCalls_app; simpl; rewrite ?app_nil_r; reflexivity.
Qed.

(** In every mode the flow completes without raising, turns the spinner
    off, and sends exactly one role-detection request; the address it
    carries is never the empty string. *)
Theorem detectRoleFlow_total (net : Network) (s : HomeState) (w : World) :
  fst (detectRoleFlow net s w) = Ok tt
  /\ loading (state (snd (detectRoleFlow net s w))) = false
  /\ detectCalls (requests (snd (detectRoleFlow net s w)))
     = detectCalls (requests w) ++ [submittedIp net s]
  /\ submittedIp net s <> "".
Proof.
  destruct (detectRoleFlow_runs net s w) as (H1 & H2 & H3).
  repeat split; try assumption.
  pose proof (submittedIp_truthy net s) as Ht. unfold JS.truthy in Ht.
  apply negb_true_iff in Ht. now apply String.eqb_neq.
Qed.

(** [handleDetectClick] in manual mode without an address sends nothing
    and only sets its own error text; in every other case it sends exactly
    one role-detection request.  It never raises. *)
Theorem handleDetectClick_guard (net : Network) (s : HomeState) (w : World) :
  fst (handleDetectClick net s w) = Ok tt
  /\ detectCalls (requests (snd (handleDetectClick net s w)))
     = detectCalls (requests w)
       ++ (if manualWithoutIp s then [] else [submittedIp net s])
  /\ (manualWithoutIp s = true ->
      requests (snd (handleDetectClick net s w)) = requests w
      /\ error (state (snd (handleDetectClick net s w)))
         = Some "Please enter an IP to use manual detection."
      /\ roleInfo (state (snd (handleDetectClick net s w)))
         = roleInfo (state w)
      /\ loading (state (snd (handleDetectClick net s w)))
         = loading (state w)).
Proof.
  unfold handleDetectClick, manualWithoutIp.
  destruct (useManual s && negb (JS.truthy (manualIp s))) eqn:Hg.
  - run_handler. rewrite app_nil_r. repeat split.
  - unfold bind at 1. unfold setError at 1. unfold modify. cbv beta iota.
    match goal with
    | |- context [detectRoleFlow net s ?w1] =>
        pose proof (detectRoleFlow_runs net s w1) as (Hok & _ & Hcalls)
    end.
    simpl in Hcalls.
    split; [exact Hok |]. split; [exact Hcalls | discriminate].
Qed.

Lemma handleDetectClick_guard_witness :
  error (state (snd (handleDetectClick netDown
     (mkState (RoleInfo.mk "user" None None None) false None
              "" true false (mkPayload "" "") None)
     initialWorld)))
  = Some "Please enter an IP to use manual detection.".
Proof.
  apply (proj2 (proj2 (handleDetectClick_guard netDown
           (mkState (RoleInfo.mk "user" None None None) false None
                    "" true false (mkPayload "" "") None)
           initialWorld))).
  reflexivity.
Defined.

(** ** Gating *)

(** The driver navigation handler of the current render pushes ["/driver"]
    exactly when the role, lowercased, is ["driver"] or ["truck"];
    otherwise it leaves the history alone, shows its denial text and arms a
    timer of 2500 ms that clears the error. *)
Theorem handleDriverNavigate_gate (w : World) :
  fst (handleDriverNavigate (state w) w) = Ok tt
  /\ (history (snd (handleDriverNavigate (state w) w))
      = history w ++ ["/driver"]
      <-> JS.toLowerCase (RoleInfo.role (roleInfo (state w))) = "driver"
          \/ JS.toLowerCase (RoleInfo.role (roleInfo (state w))) = "truck")
  /\ (JS.toLowerCase (RoleInfo.role (roleInfo (state w))) <> "driver" ->
      JS.toLowerCase (RoleInfo.role (roleInfo (state w))) <> "truck" ->
      history (snd (handleDriverNavigate (state w) w)) = history w
      /\ error (state (snd (handleDriverNavigate (state w) w)))
         = Some "Access denied — driver IP not detected."
      /\ timers (snd (handleDriverNavigate (state w) w))
         = timers w ++ [(2500%Z, ClearError)]
      /\ error (state (snd (runCallback ClearError
                              (snd (handleDriverNavigate (state w) w)))))
         = None).
Proof.
  assert (Hgrow : forall (l : list string) x, l = l ++ [x] -> False).
  { intros l x H. apply (f_equal (@List.length _)) in H.
    rewrite length_app in H. simpl in H. lia. }
  unfold handleDriverNavigate, showDriverButton.
  rewrite normalizedRole_lower.
  destruct (String.eqb_spec (JS.toLowerCase (RoleInfo.role (roleInfo (state w))))
              "driver") as [Hd | Hd];
    destruct (String.eqb_spec
                (JS.toLowerCase (RoleInfo.role (roleInfo (state w))))
                "truck") as [Ht | Ht]; run_handler.
  all: split; [reflexivity |]; split.
  all: try (split; [intros _; auto | reflexivity]).
  all: try (intros; contradiction).
  - split; [intros H; now apply Hgrow in H | intros [H | H]; contradiction].
  - intros _ _. repeat split.
Qed.

Lemma handleDriverNavigate_gate_witness :
  history (snd (handleDriverNavigate
                  (state (worldWithRole (RoleInfo.mk "Truck" None None None)))
                  (worldWithRole (RoleInfo.mk "Truck" None None None))))
  = ["/driver"]
  /\ timers (snd (handleDriverNavigate
       (state (worldWithRole (RoleInfo.mk "admin" None None None)))
       (worldWithRole (RoleInfo.mk "admin" None None None))))
     = [(2500%Z, ClearError)].
Proof.
  split.
  - apply (proj1 (proj2 (handleDriverNavigate_gate
              (worldWithRole (RoleInfo.mk "Truck" None None None))))).
    right. reflexivity.
  - apply (proj2 (proj2 (handleDriverNavigate_gate
              (worldWithRole (RoleInfo.mk "admin" None None None)))));
      discriminate.
Defined.

(** A role spelled with U+212A KELVIN SIGN lowercases to ["truck"]. *)
Example handleDriverNavigate_kelvin :
  history (snd (handleDriverNavigate
                  (state (worldWithRole (RoleInfo.mk "TRUCK" None None None)))
                  (worldWithRole (RoleInfo.mk "TRUCK" None None None))))
  = ["/driver"].
Proof. reflexivity. Qed.

(** No role shows both the admin and the driver button, and the two flags
    depend on the role only up to letter case. *)
Theorem buttons_exclusive (s s' : HomeState) :
  showAdminButton s && showDriverButton s = false
  /\ (JS.toLowerCase (RoleInfo.role (roleInfo s'))
      = JS.toLowerCase (RoleInfo.role (roleInfo s)) ->
      showAdminButton s' = showAdminButton s
      /\ showDriverButton s' = showDriverButton s).
Proof.
  unfold showAdminButton, showDriverButton.
  rewrite !normalizedRole_lower. split.
  - destruct (String.eqb_spec
                (JS.toLowerCase (RoleInfo.role (roleInfo s))) "admin")
      as [-> | _]; reflexivity.
  - intros ->. split; reflexivity.
Qed.

Lemma buttons_exclusive_witness :
  showAdminButton (state (worldWithRole (RoleInfo.mk "ADMIN" None None None)))
  = showAdminButton (state (worldWithRole (RoleInfo.mk "admin" None None None))).
Proof.
  apply (proj2 (buttons_exclusive
                  (state (worldWithRole (RoleInfo.mk "admin" None None None)))
                  (state (worldWithRole (RoleInfo.mk "ADMIN" None None None))))).
  reflexivity.
Defined.

(** After a failed detection the next render is a guest's: neither button
    is shown and both navigation handlers refuse. *)
Theorem failed_detection_denies (net : Network) (ip : string) (w : World)
  (Hfail : detectFailure (detect net ip) = true) :
  let w1 := snd (callDetectEndpoint net ip w) in
  showAdminButton (state w1) = false
  /\ showDriverButton (state w1) = false
  /\ history (snd (handleAdminNavigate (state w1) w1)) = history w
  /\ history (snd (handleDriverNavigate (state w1) w1)) = history w.
Proof.
  intros w1.
  destruct (callDetectEndpoint_after_failure net ip w Hfail) as (Hrole & _).
  fold w1 in Hrole.
  destruct (callDetectEndpoint_outside net ip w) as (_ & Hhist).
  fold w1 in Hhist.
  assert (Ha : showAdminButton (state w1) = false).
  { unfold showAdminButton. rewrite normalizedRole_lower, Hrole.
    reflexivity. }
  assert (Hd : showDriverButton (state w1) = false).
  { unfold showDriverButton. rewrite normalizedRole_lower, Hrole.
    reflexivity. }
  repeat split; try assumption.
  - unfold handleAdminNavigate. rewrite Ha. run_handler. exact Hhist.
  - unfold handleDriverNavigate. rewrite Hd. run_handler. exact Hhist.
Qed.

Lemma failed_detection_denies_witness :
  detectFailure (detect netDown "192.0.2.1") = true
  /\ showAdminButton
       (state (snd (callDetectEndpoint netDown "192.0.2.1"
          (worldWithRole (RoleInfo.mk "admin" (Some "10.1.1.1") None None)))))
     = false.
Proof.
  split; [reflexivity |].
  apply (failed_detection_denies netDown "192.0.2.1"
           (worldWithRole (RoleInfo.mk "admin" (Some "10.1.1.1") None None))).
  reflexivity.
Defined.

(** After a successful detection the admin handler of the next render
    navigates exactly when the role of the response, lowercased, is
    ["admin"]; a response without a role counts as ["user"] and is
    refused, and so is one whose role is the empty string. *)
Theorem successful_detection_gate (net : Network) (ip : string) (w : World)
  (data : option Data.t) (Hok : detectSuccess (detect net ip) data) :
  let w1 := snd (callDetectEndpoint net ip w) in
  (history (snd (handleAdminNavigate (state w1) w1)) = history w ++ ["/admin"]
   <-> JS.toLowerCase (JS.nullish (JS.opt_chain data Data.role) "user")
       = "admin")
  /\ (JS.opt_chain data Data.role = None \/
      JS.opt_chain data Data.role = Some "" ->
      history (snd (handleAdminNavigate (state w1) w1)) = history w).
Proof.
  intros w1.
  pose proof (callDetectEndpoint_after_success net ip w data Hok) as Hri.
  fold w1 in Hri.
  destruct (callDetectEndpoint_outside net ip w) as (_ & Hhist).
  fold w1 in Hhist.
  destruct (handleAdminNavigate_run (state w1) w1) as (_ & Hyes & Hno).
  rewrite Hri, Hhist in Hyes. simpl in Hyes.
  rewrite Hri, Hhist in Hno. simpl in Hno.
  split.
  - split.
    + intros Hh.
      destruct (string_dec
                  (JS.toLowerCase
                     (JS.nullish (JS.opt_chain data Data.role) "user"))
                  "admin") as [Heq | Hne]; [exact Heq | exfalso].
      destruct (Hno Hne) as (Hsame & _). rewrite Hsame in Hh.
      apply (f_equal (@List.length string)) in Hh.
      rewrite length_app in Hh. simpl in Hh. lia.
    + intros Heq. exact (proj1 (Hyes Heq)).
  - intros [Hr | Hr]; rewrite Hr in Hno; simpl in Hno;
      apply Hno; discriminate.
Qed.

Lemma successful_detection_gate_witness :
  history (snd (handleAdminNavigate
     (state (snd (callDetectEndpoint
        (netUp None 200 (Data.mk (Some "") None None None)) "192.0.2.1"
        initialWorld)))
     (snd (callDetectEndpoint
        (netUp None 200 (Data.mk (Some "") None None None)) "192.0.2.1"
        initialWorld))))
  = [].
Proof.
  apply (proj2 (successful_detection_gate
                  (netUp None 200 (Data.mk (Some "") None None None))
                  "192.0.2.1" initialWorld
                  (Some (Data.mk (Some "") None None None))
                  ltac:(eexists; split; [reflexivity | split; reflexivity]))).
  right. reflexivity.
Defined.

(** The callback that a refused navigation hands to [setTimeout] clears
    whatever error is shown when it runs.  If a role detection has failed
    between the refusal and the run of that callback, the failure banner
    it had set is removed, although the role stays ["guest"]. *)
Theorem denial_timer_clears_detection_error
  (net : Network) (ip : string) (w : World)
  (Hrole : JS.toLowerCase (RoleInfo.role (roleInfo (state w))) <> "admin")
  (Hfail : detectFailure (detect net ip) = true) :
  let w1 := snd (handleAdminNavigate (state w) w) in
  let w2 := snd (callDetectEndpoint net ip w1) in
  timers w1 = timers w ++ [(2500%Z, ClearError)]
  /\ error (state w2) = Some DETECT_FAILED
  /\ error (state (snd (runCallback ClearError w2))) = None
  /\ RoleInfo.role (roleInfo (state (snd (runCallback ClearError w2))))
     = "guest".
Proof.
  intros w1 w2.
  destruct (handleAdminNavigate_run (state w) w) as (_ & _ & Hno).
  destruct (Hno Hrole) as (_ & _ & Htm). fold w1 in Htm.
  destruct (callDetectEndpoint_after_failure net ip w1 Hfail) as (Hr & He).
  fold w2 in Hr, He.
  split; [exact Htm |].
  split; [exact He |]. split; [reflexivity |].
  unfold runCallback. run_handler. now rewrite Hr.
Qed.

Lemma denial_timer_clears_detection_error_witness :
  error (state (snd (runCallback ClearError
     (snd (callDetectEndpoint netDown "192.0.2.1"
        (snd (handleAdminNavigate
           (state (worldWithRole (RoleInfo.mk "user" None None None)))
           (worldWithRole (RoleInfo.mk "user" None None None)))))))))
  = None.
Proof.
  apply (denial_timer_clears_detection_error netDown "192.0.2.1"
           (worldWithRole (RoleInfo.mk "user" None None None))).
  - discriminate.
  - reflexivity.
Defined.

(** ** [submitReport] *)

(** When the report service answers with a 2xx status, the handler shows
    the success toast, closes the modal and empties the form. *)
Theorem submitReport_success (net : Network) (s : HomeState) (w : World)
  (Hok : reportFailure (report net (reportPayload s)) = false) :
  fst (submitReport net s w) = Ok tt
  /\ reportStatus (state (snd (submitReport net s w)))
     = Some (ReportStatus.mk "success" "Report submitted — thank you!")
  /\ showReport (state (snd (submitReport net s w))) = false
  /\ reportPayload (state (snd (submitReport net s w))) = mkPayload "" ""
  /\ console (snd (submitReport net s w)) = console w.
Proof.
  unfold reportFailure in Hok.
  unfold submitReport. run_handler.
  destruct (report net (reportPayload s)) as [| r]; [discriminate |].
  apply negb_false_iff in Hok. simpl. rewrite Hok. simpl. repeat split.
Qed.

Lemma submitReport_success_witness :
  showReport
    (state (snd (submitReport
       (netUp None 204 (Data.mk None None None None))
       (state (worldReporting (mkPayload "BIN-A" "full")))
       (worldReporting (mkPayload "BIN-A" "full")))))
  = false.
Proof.
  apply (submitReport_success
           (netUp None 204 (Data.mk None None None None))
           (state (worldReporting (mkPayload "BIN-A" "full")))
           (worldReporting (mkPayload "BIN-A" "full"))).
  reflexivity.
Defined.

(** Whatever the report service does, the handler never raises, sends
    exactly one request (carrying the payload of its render, even an empty
    one), arms exactly one timer of 3000 ms whose callback removes the
    toast, and leaves the role record, the error banner, the spinner and
    the navigation history alone. *)
Theorem submitReport_always (net : Network) (s : HomeState) (w : World) :
  fst (submitReport net s w) = Ok tt
  /\ requests (snd (submitReport net s w))
     = requests w ++ [PostReport (reportPayload s)]
  /\ timers (snd (submitReport net s w))
     = timers w ++ [(3000%Z, ClearReportStatus)]
  /\ reportStatus (state (snd (submitReport net s w))) <> None
  /\ reportStatus
       (state (snd (runCallback ClearReportStatus
                      (snd (submitReport net s w))))) = None
  /\ roleInfo (state (snd (submitReport net s w))) = roleInfo (state w)
  /\ error (state (snd (submitReport net s w))) = error (state w)
  /\ loading (state (snd (submitReport net s w))) = loading (state w)
  /\ history (snd (submitReport net s w)) = history w.
Proof.
  unfold submitReport. run_handler.
  destruct (report net (reportPayload s)) as [| r]; simpl.
  - repeat split. discriminate.
  - destruct (Res.ok r); simpl; repeat split; discriminate.
Qed.

(** * Further properties of the distance *)

Section HaversineGeometry.

Local Open Scope R_scope.

Lemma atan2_sin_cos (x : R) :
  0 <= x <= PI / 2 -> atan2 (sin x) (cos x) = x.
Proof.
  intros [Hl Hu]. unfold atan2.
  pose proof PI_RGT_0 as Hpi.
  destruct Hu as [Hu | ->].
  - pose proof (cos_gt_0 x ltac:(lra) Hu) as Hc.
    destruct (Rlt_dec 0 (cos x)); [| contradiction].
    change (sin x / cos x) with (tan x). apply atan_tan. lra.
  - rewrite cos_PI2, sin_PI2.
    destruct (Rlt_dec 0 0); [lra |].
    destruct (Rlt_dec 0 1); [reflexivity | lra].
Qed.

(** The central angle recovered from [a = sin² x] is [2 x]. *)
Lemma central_angle (a x : R) :
  0 <= x <= PI / 2 -> a = Rsqr (sin x) ->
  2 * atan2 (sqrt a) (sqrt (1 - a)) = 2 * x.
Proof.
  intros Hx ->.
  pose proof PI_RGT_0 as Hpi.
  assert (Hs : 0 <= sin x) by (apply sin_ge_0; lra).
  assert (Hc : 0 <= cos x) by (apply cos_ge_0; lra).
  rewrite (sqrt_Rsqr _ Hs).
  replace (1 - Rsqr (sin x)) with (Rsqr (cos x))
    by (pose proof (sin2_cos2 x); lra).
  rewrite (sqrt_Rsqr _ Hc), (atan2_sin_cos x Hx). reflexivity.
Qed.

Lemma Rsqr_sin_abs (y : R) : Rsqr (sin (Rabs y)) = Rsqr (sin y).
Proof.
  unfold Rabs. destruct (Rcase_abs y); [| reflexivity].
  rewrite sin_neg. unfold Rsqr. ring.
Qed.

(** Along a meridian the distance is the Earth radius times the latitude
    difference in radians. *)
Theorem haversineDistance_meridian (lat1 lat2 lon : R)
  (H1 : -90 <= lat1 <= 90) (H2 : -90 <= lat2 <= 90) :
  haversineDistance lat1 lon lat2 lon = 6371 * Rabs (toRad (lat2 - lat1)).
Proof.
  unfold haversineDistance. cbv zeta.
  pose proof PI_RGT_0 as Hpi.
  set (y := toRad (lat2 - lat1) / 2).
  assert (Hy : - (PI / 2) <= y <= PI / 2).
  { pose proof (toRad_bounds 180 (lat2 - lat1) ltac:(lra)). unfold y. lra. }
  assert (Ha : haversineA lat1 lon lat2 lon = Rsqr (sin (Rabs y))).
  { rewrite Rsqr_sin_abs. unfold haversineA. cbv zeta. fold y.
    replace (toRad (lon - lon) / 2) with 0 by (unfold toRad; field).
    rewrite sin_0. unfold Rsqr. ring. }
  assert (Hx : 0 <= Rabs y <= PI / 2).
  { split; [apply Rabs_pos |]. apply Rabs_le. lra. }
  rewrite (central_angle _ (Rabs y) Hx Ha).
  replace (toRad (lat2 - lat1)) with (2 * y) by (unfold y; field).
  rewrite Rabs_mult, (Rabs_pos_eq 2); lra.
Qed.

Lemma haversineDistance_meridian_witness :
  haversineDistance (-90) 77.5946 90 77.5946 = 6371 * Rabs (toRad (90 - -90)).
Proof.
  apply (haversineDistance_meridian (-90) 90 77.5946); lra.
Defined.

(** Adding a full turn to a longitude does not change the distance. *)
Theorem haversineDistance_full_turn (lat1 lon1 lat2 lon2 : R) :
  haversineDistance lat1 lon1 lat2 (lon2 + 360)
  = haversineDistance lat1 lon1 lat2 lon2
  /\ haversineDistance lat1 (lon1 + 360) lat2 lon2
     = haversineDistance lat1 lon1 lat2 lon2.
Proof.
  assert (Hs : forall z, sin (z + PI) * sin (z + PI) = sin z * sin z).
  { intros z. rewrite neg_sin. ring. }
  assert (Hm : forall z, sin (z - PI) * sin (z - PI) = sin z * sin z).
  { intros z. rewrite <- (Hs (z - PI)). now replace (z - PI + PI) with z by ring. }
  unfold haversineDistance. cbv zeta.
  split; f_equal; f_equal.
  - assert (Ha : haversineA lat1 lon1 lat2 (lon2 + 360)
                 = haversineA lat1 lon1 lat2 lon2).
    { unfold haversineA. cbv zeta.
      replace (toRad (lon2 + 360 - lon1) / 2)
        with (toRad (lon2 - lon1) / 2 + PI) by (unfold toRad; field).
      rewrite !Rmult_assoc, Hs. reflexivity. }
    now rewrite Ha.
  - assert (Ha : haversineA lat1 (lon1 + 360) lat2 lon2
                 = haversineA lat1 lon1 lat2 lon2).
    { unfold haversineA. cbv zeta.
      replace (toRad (lon2 - (lon1 + 360)) / 2)
        with (toRad (lon2 - lon1) / 2 - PI) by (unfold toRad; field).
      rewrite !Rmult_assoc, Hm. reflexivity. }
    now rewrite Ha.
Qed.

(** On the equator the distance follows the shorter arc: the Earth radius
    times the longitude difference in radians, or times the rest of the
    full turn when the difference exceeds 180 degrees (across the
    antimeridian). *)
Theorem haversineDistance_equator (lon1 lon2 : R)
  (H1 : -180 <= lon1 <= 180) (H2 : -180 <= lon2 <= 180) :
  haversineDistance 0 lon1 0 lon2
  = 6371 * Rmin (Rabs (toRad (lon2 - lon1)))
                (2 * PI - Rabs (toRad (lon2 - lon1))).
Proof.
  unfold haversineDistance. cbv zeta.
  pose proof PI_RGT_0 as Hpi.
  set (z := toRad (lon2 - lon1) / 2).
  assert (Hz : - PI <= z <= PI).
  { pose proof (toRad_bounds 360 (lon2 - lon1) ltac:(lra)). unfold z. lra. }
  assert (Hzabs : 0 <= Rabs z <= PI).
  { split; [apply Rabs_pos |]. apply Rabs_le. lra. }
  assert (Ha : haversineA 0 lon1 0 lon2 = Rsqr (sin (Rabs z))).
  { rewrite Rsqr_sin_abs. unfold haversineA. cbv zeta. fold z.
    replace (toRad (0 - 0) / 2) with 0 by (unfold toRad; field).
    replace (toRad 0) with 0 by (unfold toRad; field).
    rewrite sin_0, cos_0. unfold Rsqr. ring. }
  assert (Habs : Rabs (toRad (lon2 - lon1)) = 2 * Rabs z).
  { replace (toRad (lon2 - lon1)) with (2 * z) by (unfold z; field).
    rewrite Rabs_mult, (Rabs_pos_eq 2); lra. }
  rewrite Habs.
  destruct (Rle_dec (Rabs z) (PI / 2)) as [Hle | Hgt].
  - rewrite (central_angle _ (Rabs z) (conj (proj1 Hzabs) Hle) Ha).
    rewrite Rmin_left; lra.
  - assert (Hx : 0 <= PI - Rabs z <= PI / 2) by lra.
    assert (Ha' : haversineA 0 lon1 0 lon2 = Rsqr (sin (PI - Rabs z))).
    { rewrite Ha, sin_PI_x. reflexivity. }
    rewrite (central_angle _ (PI - Rabs z) Hx Ha').
    rewrite Rmin_right; lra.
Qed.

Lemma haversineDistance_equator_witness :
  haversineDistance 0 (-170) 0 170
  = 6371 * Rmin (Rabs (toRad (170 - -170)))
                (2 * PI - Rabs (toRad (170 - -170))).
Proof.
  apply (haversineDistance_equator (-170) 170); lra.
Defined.

End HaversineGeometry.

(** * Further properties of the map *)

(** The [center] prop is the selected bin's position only when both of its
    coordinates are non-zero: without a selection, or for a bin on the
    equator or on the prime meridian, it is [DEFAULT_CENTER].  The
    recentering effect has no such exception: with a map loaded it pans to
    the selected bin whatever its coordinates, and zooms unless [panTo]
    raised. *)
Theorem mapCenter_zero_coordinate (b : Bin.t) :
  mapCenter None = DEFAULT_CENTER
  /\ (Bin.lat b <> 0%R -> Bin.lng b <> 0%R ->
      mapCenter (Some b) = (Bin.lat b, Bin.lng b))
  /\ (Bin.lat b = 0%R \/ Bin.lng b = 0%R ->
      mapCenter (Some b) = DEFAULT_CENTER)
  /\ (forall r, recenterEffect None (Some b) = []
                /\ recenterEffect (Some r) None = [])
  /\ (forall setZoomRaises,
        recenterEffect (Some (false, setZoomRaises)) (Some b)
        = [PanTo (Bin.lat b) (Bin.lng b); SetZoom 16]
        /\ recenterEffect (Some (true, setZoomRaises)) (Some b)
           = [PanTo (Bin.lat b) (Bin.lng b)]).
Proof.
  unfold mapCenter, truthy_num.
  split; [reflexivity |]. split; [| split; [| split]].
  - intros Hlat Hlng.
    destruct (Req_dec_T (Bin.lat b) 0); [contradiction |].
    destruct (Req_dec_T (Bin.lng b) 0); [contradiction |]. reflexivity.
  - intros [H | H].
    + destruct (Req_dec_T (Bin.lat b) 0); [reflexivity | contradiction].
    + destruct (Req_dec_T (Bin.lat b) 0); [reflexivity |].
      destruct (Req_dec_T (Bin.lng b) 0); [reflexivity | contradiction].
  - intros [p z]. split; reflexivity.
  - intros z. split; reflexivity.
Qed.

Lemma mapCenter_zero_coordinate_witness :
  mapCenter (Some (Bin.mk "BIN-E" "Bin E" 0%R 77.5946%R (Some "ok") "1 km"))
  = DEFAULT_CENTER.
Proof.
  apply (proj1 (proj2 (proj2 (mapCenter_zero_coordinate
           (Bin.mk "BIN-E" "Bin E" 0%R 77.5946%R (Some "ok") "1 km"))))).
  left. reflexivity.
Defined.

Lemma hexDigit_unreserved (n : nat) :
  URI.unreserved (URI.hexDigit n) = true.
Proof.
  unfold URI.hexDigit.
  do 16 (destruct n as [| n]; [reflexivity |]).
  simpl. destruct n; reflexivity.
Qed.

Lemma escapeAll_chars (octets : list N) (rest : string) :
  Forall urlSafe (list_ascii_of_string rest) ->
  Forall urlSafe (list_ascii_of_string (URI.escapeAll octets rest)).
Proof.
  intros Hrest. induction octets as [| o l IH]; simpl; [exact Hrest |].
  constructor; [now right |].
  constructor; [left; apply hexDigit_unreserved |].
  constructor; [left; apply hexDigit_unreserved | exact IH].
Qed.

(** Induction two code units at a time, as the encoder reads them. *)
Lemma units_ind2 (P : list N -> Prop) :
  P [] ->
  (forall u, P [u]) ->
  (forall u d r, P r -> P (d :: r) -> P (u :: d :: r)) ->
  forall s, P s.
Proof.
  intros H0 H1 H2.
  assert (H : forall s, P s /\ forall u, P (u :: s)).
  { induction s as [| d r [IHr IHdr]]; split; auto. }
  intros s. apply H.
Qed.

Lemma encodeURIComponent_chars (s : list N) (body : string) :
  URI.encodeURIComponent s = Some body ->
  Forall urlSafe (list_ascii_of_string body).
Proof.
  revert body. induction s as [| u | u d r IHr IHdr] using units_ind2;
    intros body.
  - intros [= <-]. constructor.
  - simpl. destruct (URI.unreserved_unit u) eqn:Eu.
    + intros [= <-]. simpl. constructor; [| constructor].
      left. unfold URI.unreserved_unit in Eu.
      now apply andb_true_iff in Eu.
    + destruct (URI.isLowSurrogate u); [discriminate |].
      destruct (URI.isHighSurrogate u); [discriminate |].
      intros [= <-]. apply escapeAll_chars. constructor.
  - change (URI.encodeURIComponent (u :: d :: r))
      with (if URI.unreserved_unit u
            then option_map (String (ascii_of_N u))
                   (URI.encodeURIComponent (d :: r))
            else if URI.isLowSurrogate u then None
            else if URI.isHighSurrogate u
            then (if URI.isLowSurrogate d
                  then option_map
                         (URI.escapeAll
                            (URI.utf8 ((u - 0xD800) * 0x400 + (d - 0xDC00)
                                       + 0x10000)%N))
                         (URI.encodeURIComponent r)
                  else None)
            else option_map (URI.escapeAll (URI.utf8 u))
                   (URI.encodeURIComponent (d :: r))).
    destruct (URI.unreserved_unit u) eqn:Eu.
    + destruct (URI.encodeURIComponent (d :: r)) as [t |]; [| discriminate].
      intros [= <-]. simpl. constructor; [| now apply IHdr].
      left. unfold URI.unreserved_unit in Eu.
      now apply andb_true_iff in Eu.
    + destruct (URI.isLowSurrogate u); [discriminate |].
      destruct (URI.isHighSurrogate u).
      * destruct (URI.isLowSurrogate d); [| discriminate].
        destruct (URI.encodeURIComponent r) as [t |]; [| discriminate].
        intros [= <-]. apply escapeAll_chars. now apply IHr.
      * destruct (URI.encodeURIComponent (d :: r)) as [t |]; [| discriminate].
        intros [= <-]. apply escapeAll_chars. now apply IHdr.
Qed.

Lemma unreserved_not_surrogate (u : N) :
  URI.unreserved_unit u = true ->
  URI.isLowSurrogate u = false /\ URI.isHighSurrogate u = false.
Proof.
  unfold URI.unreserved_unit, URI.isLowSurrogate, URI.isHighSurrogate.
  intros H. apply andb_true_iff in H. destruct H as [H _].
  apply N.ltb_lt in H.
  split; apply andb_false_iff; left; apply N.leb_gt; lia.
Qed.

(** The encoder raises exactly on strings that are not well formed. *)
Lemma encodeURIComponent_raises (s : list N) :
  URI.encodeURIComponent s = None <-> URI.wellFormed s = false.
Proof.
  induction s as [| u | u d r IHr IHdr] using units_ind2.
  - simpl. split; discriminate.
  - simpl. destruct (URI.unreserved_unit u) eqn:Eu.
    + destruct (unreserved_not_surrogate u Eu) as [-> ->].
      simpl. split; discriminate.
    + destruct (URI.isLowSurrogate u); [tauto |].
      destruct (URI.isHighSurrogate u); [tauto |].
      simpl. split; discriminate.
  - change (URI.encodeURIComponent (u :: d :: r))
      with (if URI.unreserved_unit u
            then option_map (String (ascii_of_N u))
                   (URI.encodeURIComponent (d :: r))
            else if URI.isLowSurrogate u then None
            else if URI.isHighSurrogate u
            then (if URI.isLowSurrogate d
                  then option_map
                         (URI.escapeAll
                            (URI.utf8 ((u - 0xD800) * 0x400 + (d - 0xDC00)
                                       + 0x10000)%N))
                         (URI.encodeURIComponent r)
                  else None)
            else option_map (URI.escapeAll (URI.utf8 u))
                   (URI.encodeURIComponent (d :: r))).
    change (URI.wellFormed (u :: d :: r))
      with (if URI.isLowSurrogate u then false
            else if URI.isHighSurrogate u
            then URI.isLowSurrogate d && URI.wellFormed r
            else URI.wellFormed (d :: r)).
    destruct (URI.unreserved_unit u) eqn:Eu.
    + destruct (unreserved_not_surrogate u Eu) as [-> ->].
      rewrite <- IHdr.
      destruct (URI.encodeURIComponent (d :: r)); simpl;
        split; auto; discriminate.
    + destruct (URI.isLowSurrogate u); [tauto |].
      destruct (URI.isHighSurrogate u).
      * destruct (URI.isLowSurrogate d); simpl; [| tauto].
        rewrite <- IHr.
        destruct (URI.encodeURIComponent r); simpl;
          split; auto; discriminate.
      * rewrite <- IHdr.
        destruct (URI.encodeURIComponent (d :: r)); simpl;
          split; auto; discriminate.
Qed.

Lemma byte_not_surrogate (c : ascii) :
  URI.isLowSurrogate (N_of_ascii c) = false
  /\ URI.isHighSurrogate (N_of_ascii c) = false.
Proof.
  destruct c as [[] [] [] [] [] [] [] []]; split; reflexivity.
Qed.

Lemma wellFormed_units_app (a : string) (l : list N) :
  URI.wellFormed (URI.units a ++ l) = URI.wellFormed l.
Proof.
  unfold URI.units.
  induction (list_ascii_of_string a) as [| c t IH]; [reflexivity |].
  change (map N_of_ascii (c :: t) ++ l)
    with (N_of_ascii c :: (map N_of_ascii t ++ l)).
  destruct (byte_not_surrogate c) as [Hl Hh].
  cbn [URI.wellFormed]. rewrite Hl, Hh. exact IH.
Qed.

Lemma wellFormed_units (a : string) : URI.wellFormed (URI.units a) = true.
Proof.
  pose proof (wellFormed_units_app a []) as H.
  now rewrite app_nil_r in H.
Qed.

Lemma wellFormed_app_units (l : list N) (b : string) :
  URI.wellFormed (l ++ URI.units b) = URI.wellFormed l.
Proof.
  induction l as [| u | u d r IHr IHdr] using units_ind2.
  - apply wellFormed_units.
  - change ([u] ++ URI.units b) with (u :: URI.units b).
    cbn [URI.wellFormed].
    destruct (URI.isLowSurrogate u); [reflexivity |].
    destruct (URI.isHighSurrogate u).
    + unfold URI.units.
      destruct (list_ascii_of_string b) as [| c t]; [reflexivity |].
      cbn [map]. destruct (byte_not_surrogate c) as [-> _]. reflexivity.
    + apply wellFormed_units.
  - change ((u :: d :: r) ++ URI.units b)
      with (u :: d :: (r ++ URI.units b)).
    change (URI.wellFormed (u :: d :: (r ++ URI.units b)))
      with (if URI.isLowSurrogate u then false
            else if URI.isHighSurrogate u
            then URI.isLowSurrogate d && URI.wellFormed (r ++ URI.units b)
            else URI.wellFormed (d :: (r ++ URI.units b))).
    change (URI.wellFormed (u :: d :: r))
      with (if URI.isLowSurrogate u then false
            else if URI.isHighSurrogate u
            then URI.isLowSurrogate d && URI.wellFormed r
            else URI.wellFormed (d :: r)).
    rewrite IHr. change (d :: (r ++ URI.units b)) with ((d :: r) ++ URI.units b).
    rewrite IHdr. reflexivity.
Qed.

Lemma wellFormed_markerSvg (color : list N) :
  URI.wellFormed (markerSvg color) = URI.wellFormed color.
Proof.
  unfold markerSvg.
  now rewrite wellFormed_units_app, wellFormed_app_units.
Qed.

Lemma createMarkerSvgDataUrl_body (color : option (list N)) :
  (URI.wellFormed (JS.nullish color (URI.units "#ef4444")) = false ->
   createMarkerSvgDataUrl color = None)
  /\ (URI.wellFormed (JS.nullish color (URI.units "#ef4444")) = true ->
      exists body,
        createMarkerSvgDataUrl color
        = Some (DATA_URL_PREFIX ++ body)%string
        /\ Forall urlSafe (list_ascii_of_string body)).
Proof.
  unfold createMarkerSvgDataUrl.
  set (c := JS.nullish color (URI.units "#ef4444")).
  pose proof (encodeURIComponent_raises (markerSvg c)) as Hr.
  rewrite wellFormed_markerSvg in Hr.
  split.
  - intros Hw. apply Hr in Hw. now rewrite Hw.
  - intros Hw.
    destruct (URI.encodeURIComponent (markerSvg c)) as [body |] eqn:E.
    + exists body. split; [reflexivity |].
      exact (encodeURIComponent_chars _ _ E).
    + assert (Hf : URI.wellFormed c = false) by now apply Hr.
      congruence.
Qed.

(** [createMarkerSvgDataUrl] raises [URIError] exactly when the colour
    holds a surrogate outside a pair.  Otherwise it returns the fixed
    [data:] prefix followed only by letters, digits, the marks
    [- _ . ! ~ * ' ( )] and [%]: no raw [#], quote, angle bracket or blank
    of the SVG or of the colour reaches the URL. *)
Theorem createMarkerSvgDataUrl_safe (color : option (list N)) :
  (createMarkerSvgDataUrl color = None
   <-> URI.wellFormed (JS.nullish color (URI.units "#ef4444")) = false)
  /\ (forall url, createMarkerSvgDataUrl color = Some url ->
      exists body,
        url = (DATA_URL_PREFIX ++ body)%string
        /\ Forall urlSafe (list_ascii_of_string body)
        /\ ~ In "#"%char (list_ascii_of_string body)
        /\ ~ In (ascii_of_nat 34) (list_ascii_of_string body)
        /\ ~ In "<"%char (list_ascii_of_string body)
        /\ ~ In " "%char (list_ascii_of_string body)).
Proof.
  destruct (createMarkerSvgDataUrl_body color) as [Hbad Hgood].
  destruct (URI.wellFormed (JS.nullish color (URI.units "#ef4444"))) eqn:Hw.
  - destruct (Hgood eq_refl) as (body & Hurl & Hall).
    split; [rewrite Hurl; split; discriminate |].
    intros url Hu. rewrite Hurl in Hu. injection Hu as <-.
    exists body. split; [reflexivity |]. split; [exact Hall |].
    rewrite Forall_forall in Hall.
    repeat split; intros Hin; destruct (Hall _ Hin) as [H | H];
      discriminate H.
  - split; [split; auto |].
    intros url Hu. rewrite (Hbad eq_refl) in Hu. discriminate.
Qed.

Lemma createMarkerSvgDataUrl_safe_witness :
  createMarkerSvgDataUrl (Some [0x23; 0xD83D; 0x66]%N) = None
  /\ createMarkerSvgDataUrl (Some [0xD83D; 0xDE00]%N) <> None.
Proof.
  split.
  - apply (proj1 (createMarkerSvgDataUrl_safe (Some [0x23; 0xD83D; 0x66]%N))).
    reflexivity.
  - intros H.
    apply (proj1 (createMarkerSvgDataUrl_safe (Some [0xD83D; 0xDE00]%N))) in H.
    discriminate H.
Defined.

(** The icon of every bin's marker is computed without error: the colour
    chosen from the status is one of three ASCII constants, and the URL is
    the [data:] prefix followed by URL-safe characters. *)
Theorem markerIcon_defined (b : Bin.t) :
  exists body,
    markerIcon b = Some (DATA_URL_PREFIX ++ body)%string
    /\ Forall urlSafe (list_ascii_of_string body).
Proof.
  unfold markerIcon.
  apply (proj2 (createMarkerSvgDataUrl_body
                  (Some (URI.units (BinMap.color b))))).
  apply wellFormed_units.
Qed.

Example encodeURIComponent_fragment :
  URI.encodeURIComponent (URI.units "<circle r='2.5' fill=#fff/>")
  = Some "%3Ccircle%20r%3D'2.5'%20fill%3D%23fff%2F%3E".
Proof. vm_compute. reflexivity. Qed.

(** U+00E9, U+20AC and the pair for U+1F600. *)
Example encodeURIComponent_utf8 :
  URI.encodeURIComponent [0xE9; 0x20AC; 0xD83D; 0xDE00]%N
  = Some "%C3%A9%E2%82%AC%F0%9F%98%80".
Proof. vm_compute. reflexivity. Qed.

Example createMarkerSvgDataUrl_default_start :
  option_map
    (String.prefix
       "data:image/svg+xml;charset=UTF-8,%3Csvg%20xmlns%3D'http%3A%2F%2Fwww.w3.org%2F2000%2Fsvg'%20width%3D'48'%20height%3D'48'%20viewBox%3D'0%200%2024%2024'%3E%0A%20%20%20%20%3Cpath%20d%3D%22M12%202c2.761")
    (createMarkerSvgDataUrl None)
  = Some true.
Proof. vm_compute. reflexivity. Qed.

(** * The distance in binary64 *)

Module Binary64.
Import Stdlib.Floats.Floats.
Local Open Scope Z_scope.

Lemma within_mono (K K' : Z) (x : spec_float) :
  K <= K' -> Double.within K x -> Double.within K' x.
Proof. destruct x; simpl; auto. lia. Qed.


















Local Open Scope float_scope.










Lemma table_conforming : Math.conforming Math.table.
Proof.
  unfold Math.conforming, Math.table; cbn [Math.sin Math.cos Math.atan2].
  repeat split.
  - intros x ->. reflexivity.
  - intros x ->. reflexivity.
  - intros x _.
    destruct (abs x <? 0x1p-27); [reflexivity |].
    destruct (abs x =? 0x1.86f4291ecf2f3p+0); reflexivity.
  - intros x Hx.
    assert (Hn : is_nan x = false).
    { unfold is_nan. rewrite eqb_spec. rewrite ltb_spec in Hx.
      change (Prim2SF 0) with (S754_zero false) in Hx.
      unfold SFltb, SFeqb, SFcompare in *.
      destruct (Prim2SF x) as [s | s | | s m e]; try discriminate;
        try (destruct s; reflexivity).
      rewrite Z.compare_refl, Pos.compare_cont_refl.
      destruct s; reflexivity. }
    rewrite Hn. reflexivity.
  - intros y. now rewrite orb_true_r.
Qed.



Section WithMath.

Variable M : Math.lib.
Hypothesis HM : Math.conforming M.





End WithMath.




(** C7, at a failing input. The points (-87.5, -180) and (87.5, 0) are
    valid.  When [Math.sin] and [Math.cos] return the correctly rounded
    results at the four arguments the code passes them, [a] is
    [1 + 2^-52], [1 - a] is negative, its square root is [NaN] and so is
    the distance. *)
Theorem haversineDistance_nan (M : Math.lib)
  (HM : Math.conforming M)
  (Hs1 : Math.sin M 0x1.86f4291ecf2f3p+0 = 0x1.ff833f9da45f7p-1)
  (Hc2 : Math.cos M (-0x1.86f4291ecf2f3p+0) = 0x1.65547c4694e32p-5)
  (Hc3 : Math.cos M 0x1.86f4291ecf2f3p+0 = 0x1.65547c4694e32p-5)
  (Hs4 : Math.sin M 0x1.921fb54442d18p+0 = 1) :
  Double.validCoord (-87.5) (-180) = true
  /\ Double.validCoord 87.5 0 = true
  /\ Double.haversineA M (-87.5) (-180) 87.5 0 = 0x1.0000000000001p+0
  /\ (1 - Double.haversineA M (-87.5) (-180) 87.5 0 <? 0) = true
  /\ is_nan (sqrt (1 - Double.haversineA M (-87.5) (-180) 87.5 0)) = true
  /\ is_nan (Double.haversineDistance M (-87.5) (-180) 87.5 0) = true.
Proof.
  assert (Ha : Double.haversineA M (-87.5) (-180) 87.5 0
               = 0x1.0000000000001p+0).
  { unfold Double.haversineA. cbv zeta.
    change (Double.toRad (87.5 - -87.5) / 2) with 0x1.86f4291ecf2f3p+0.
    change (Double.toRad (0 - -180) / 2) with 0x1.921fb54442d18p+0.
    change (Double.toRad (-87.5)) with (-0x1.86f4291ecf2f3p+0).
    change (Double.toRad 87.5) with 0x1.86f4291ecf2f3p+0.
    rewrite Hs1, Hc2, Hc3, Hs4. reflexivity. }
  split; [reflexivity |]. split; [reflexivity |].
  split; [exact Ha |].
  unfold Double.haversineDistance. cbv zeta. rewrite Ha.
  split; [reflexivity |]. split; [reflexivity |].
  change (sqrt (1 - 0x1.0000000000001p+0)) with nan.
  destruct HM as (_ & _ & _ & _ & Hn). rewrite Hn. reflexivity.
Qed.

Lemma haversineDistance_nan_witness :
  is_nan (Double.haversineDistance Math.table (-87.5) (-180) 87.5 0) = true.
Proof.
  apply (haversineDistance_nan Math.table table_conforming);
    reflexivity.
Defined.

End Binary64.

(** * Instances *)

Lemma callDetectEndpoint_settles_witness :
  error (state (snd (callDetectEndpoint
     (netUp None 200 (Data.mk (Some "driver") None None None)) "192.0.2.1"
     (worldWithRole (RoleInfo.mk "guest" None None None)))))
  = None.
Proof.
  exact (proj1 (proj2 (callDetectEndpoint_settles
           (netUp None 200 (Data.mk (Some "driver") None None None))
           "192.0.2.1"
           (worldWithRole (RoleInfo.mk "guest" None None None))))).
Defined.

Lemma callDetectEndpoint_frame_witness :
  console (snd (callDetectEndpoint
     (netUp None 200 (Data.mk (Some "driver") None None None)) "192.0.2.1"
     initialWorld))
  = console initialWorld.
Proof.
  apply (proj2 (proj2 (proj2 (proj2 (proj2 (proj2 (proj2
           (callDetectEndpoint_frame
              (netUp None 200 (Data.mk (Some "driver") None None None))
              "192.0.2.1" initialWorld)))))))).
  reflexivity.
Defined.

Lemma detectRoleFlow_total_witness :
  detectCalls (requests (snd (detectRoleFlow
     (netUp (Some "198.51.100.9") 500 (Data.mk None None None None))
     initialState initialWorld)))
  = ["198.51.100.9"].
Proof.
  exact (proj1 (proj2 (proj2 (detectRoleFlow_total
           (netUp (Some "198.51.100.9") 500 (Data.mk None None None None))
           initialState initialWorld)))).
Defined.

Lemma submitReport_always_witness :
  requests (snd (submitReport netDown
     (state (worldReporting (mkPayload "" "")))
     (worldReporting (mkPayload "" ""))))
  = [PostReport (mkPayload "" "")].
Proof.
  exact (proj1 (proj2 (submitReport_always netDown
           (state (worldReporting (mkPayload "" "")))
           (worldReporting (mkPayload "" ""))))).
Defined.
